(** * Autonomous QA Agent: the retrieval-and-validation engine

    A shallow embedding of [backend/rag_engine.py] (class [RAGEngine]) and of
    the [build_knowledge_base] handler of [backend/app.py].

    Conventions of the embedding.
    - A Python [str] is a [string]; a character is a code point below 256, so
      the whitespace and case tables below are Python's restricted to Latin-1.
    - A [dict] with string keys is a [gmap string _]; a [set] of strings is a
      [gset string].
    - A method of the engine is a function [World -> result A * World]: it
      returns a value or raises, and in both cases hands back the state it
      left behind (an exception does not undo assignments made before it).
    - The libraries the engine calls (Chroma, the langchain loaders and
      splitter, BeautifulSoup, the language-model chains) are the fields of
      the class [Providers]; a provider call that the source or its callers
      expect to raise returns a [result]. *)

From Stdlib Require Import ZArith NArith Ascii String.
From stdpp Require Import base option list gmap strings.

Local Open Scope string_scope.

(** ** Python strings *)

Module PyStr.

Definition code (c : ascii) : N := N_of_ascii c.

(** [str.isspace] on one character (also the class [\s] of [re]). *)
Definition isspace (c : ascii) : bool :=
  let n := code c in
  ((9 <=? n) && (n <=? 13) || (28 <=? n) && (n <=? 32)
   || (n =? 133) || (n =? 160))%N.

(** [str.lower] on one character. *)
Definition lower_char (c : ascii) : ascii :=
  let n := code c in
  if ((65 <=? n) && (n <=? 90)
      || (192 <=? n) && (n <=? 222) && negb (n =? 215))%N
  then ascii_of_N (n + 32) else c.

Fixpoint lower (s : string) : string :=
  match s with
  | EmptyString => EmptyString
  | String c s' => String (lower_char c) (lower s')
  end.

(** Truth value of a [str]: non-empty. *)
Definition truthy (s : string) : bool :=
  match s with EmptyString => false | _ => true end.

(** Truth value of a [str | None]. *)
Definition truthy_opt (o : option string) : bool :=
  match o with Some s => truthy s | None => false end.

(** [a or b] on [str | None] values. *)
Definition or_else (a b : option string) : option string :=
  if truthy_opt a then a else b.

Fixpoint lstrip (s : string) : string :=
  match s with
  | EmptyString => EmptyString
  | String c s' => if isspace c then lstrip s' else s
  end.

Fixpoint rstrip (s : string) : string :=
  match s with
  | EmptyString => EmptyString
  | String c s' =>
      match rstrip s' with
      | EmptyString => if isspace c then EmptyString else String c EmptyString
      | r => String c r
      end
  end.

(** [s.strip()] *)
Definition strip (s : string) : string := rstrip (lstrip s).

(** [s.startswith(p)] *)
Fixpoint startswith (p s : string) : bool :=
  match p, s with
  | EmptyString, _ => true
  | String a p', String b s' => if decide (a = b) then startswith p' s' else false
  | String _ _, EmptyString => false
  end.

(** [s[n:]] for [n >= 0] *)
Fixpoint drop (n : nat) (s : string) : string :=
  match n, s with
  | O, _ => s
  | S n', String _ s' => drop n' s'
  | S _, EmptyString => EmptyString
  end.

(** [s[:n]] for [n >= 0] *)
Fixpoint take (n : nat) (s : string) : string :=
  match n, s with
  | O, _ => EmptyString
  | S n', String c s' => String c (take n' s')
  | S _, EmptyString => EmptyString
  end.

(** [s.endswith(p)] *)
Definition endswith (p s : string) : bool :=
  (String.length p <=? String.length s)%nat
  && bool_decide (drop (String.length s - String.length p) s = p).

(** [s.rfind(c)] for a one-character [c]: the last index, [None] for -1. *)
Fixpoint rfind (c : ascii) (s : string) : option nat :=
  match s with
  | EmptyString => None
  | String a s' =>
      match rfind c s' with
      | Some i => Some (S i)
      | None => if decide (a = c) then Some O else None
      end
  end.

(** [sep.join(l)] *)
Fixpoint join (sep : string) (l : list string) : string :=
  match l with
  | [] => EmptyString
  | [x] => x
  | x :: l' => x +:+ sep +:+ join sep l'
  end.

(** [s.replace(old, new)] for a non-empty [old]: occurrences are replaced
    from the left and do not overlap.  [skip] counts the characters of an
    occurrence still to be passed over. *)
Fixpoint replace_from (old new : string) (skip : nat) (s : string) : string :=
  match s with
  | EmptyString => EmptyString
  | String c s' =>
      match skip with
      | S k => replace_from old new k s'
      | O =>
          if startswith old s
          then new +:+ replace_from old new (String.length old - 1) s'
          else String c (replace_from old new O s')
      end
  end.

Definition replace (old new s : string) : string := replace_from old new O s.

(** [needle in s] *)
Fixpoint contains (needle s : string) : bool :=
  startswith needle s
  || match s with EmptyString => false | String _ s' => contains needle s' end.

End PyStr.

(** ** Paths: [os.path] and [pathlib] on a POSIX system *)

Module PyPath.
Import PyStr.

Definition sep : ascii := "/"%char.
Definition extsep : ascii := "."%char.

(** [os.path.join(a, b)] for a non-empty [a] and a relative [b]. *)
Definition join (a b : string) : string :=
  if startswith "/" b then b
  else if endswith "/" a then a +:+ b
  else a +:+ "/" +:+ b.

(** [os.path.basename(p)]: what follows the last separator. *)
Definition basename (p : string) : string :=
  match rfind sep p with
  | Some i => drop (S i) p
  | None => p
  end.

(** The loop of [genericpath._splitext] that skips the leading dots of the
    file name: is some character of [p[i:dot]] not a dot? *)
Fixpoint has_non_dot (p : string) (i dot : nat) : bool :=
  match p with
  | EmptyString => false
  | String c p' =>
      match dot with
      | O => false
      | S dot' =>
          match i with
          | S i' => has_non_dot p' i' dot'
          | O => if decide (c = extsep) then has_non_dot p' O dot' else true
          end
      end
  end.

(** [os.path.splitext(p)[1]] *)
Definition splitext_ext (p : string) : string :=
  let filenameIndex := match rfind sep p with Some i => S i | None => O end in
  match rfind extsep p with
  | Some dotIndex =>
      if (filenameIndex <=? dotIndex)%nat && has_non_dot p filenameIndex dotIndex
      then drop dotIndex p
      else EmptyString
  | None => EmptyString
  end.

(** The components of a path, as [pathlib] parses them: empty components
    and ["."] are dropped. *)
Fixpoint split_sep (cur : string) (p : string) : list string :=
  match p with
  | EmptyString => [cur]
  | String c p' =>
      if decide (c = sep) then cur :: split_sep EmptyString p'
      else split_sep (cur +:+ String c EmptyString) p'
  end.

Definition parts (p : string) : list string :=
  filter (fun x => x <> EmptyString /\ x <> ".") (split_sep EmptyString p).

(** [Path(p).name] *)
Definition name (p : string) : string := default EmptyString (last (parts p)).

(** [Path(p).suffix] (Python up to 3.13): from the last dot of the name,
    unless that dot opens or closes the name. *)
Definition suffix (p : string) : string :=
  let n := name p in
  match rfind extsep n with
  | Some i =>
      if (0 <? i)%nat && (i <? String.length n - 1)%nat then drop i n
      else EmptyString
  | None => EmptyString
  end.

End PyPath.

(** ** Data model *)

(** [langchain_core.documents.Document] *)
Record Document := mkDocument {
  page_content : string;
  metadata : gmap string string;
}.

(** [backend.models.TestCase] *)
Record TestCase := mkTestCase {
  test_id : string;
  feature : string;
  test_scenario : string;
  expected_result : string;
  grounded_in : string;
}.

(** [backend.models.TestPlan] *)
Record TestPlan := mkTestPlan {
  test_viewpoints : list string;
  test_cases : list TestCase;
}.

(** An element of a parsed page, as [_validate_selenium_script] reads it:
    [tag.get("id")], [tag.get("name")] and [tag.get("class")]. *)
Record Tag := mkTag {
  tag_id : option string;
  tag_name : option string;
  tag_class : option (list string);
}.

(** The files the engine can see: regular files by path with their text, and
    directories with their listing in [os.listdir] order. *)
Record FileSystem := mkFS {
  files : gmap string string;
  dirs : gmap string (list string);
}.

(** Exceptions. *)
Inductive PyExc :=
| ValueError (msg : string)
| OSError (path : string)
| HTTPException (status_code : Z) (detail : string)
| ProviderError (msg : string).

Inductive result (A : Type) :=
| Ok (a : A)
| Raise (e : PyExc).
Arguments Ok {A} a.
Arguments Raise {A} e.

(** The inputs of one invocation of a language-model chain. *)
Inductive LLMCall :=
| PlanCall (key context query : string)
| ScriptCall (key test_id scenario expected html_content context : string).

Definition CHROMA_PATH : string := "data/chroma_db".
Definition UPLOAD_DIR : string := "data/uploads".

(** ** The libraries behind the engine *)

Class Providers := {
  (** A Chroma handle together with the collection persisted behind it. *)
  VectorStore : Type;
  (** [Chroma(persist_directory=..., embedding_function=...)], opened over
      what the previous handle left at that location. *)
  Chroma : string -> VectorStore -> VectorStore;
  delete_collection : VectorStore -> result unit * VectorStore;
  add_documents : list Document -> VectorStore -> result unit * VectorStore;
  (** [as_retriever(search_kwargs={"k": k, "filter": f}).invoke(query)] *)
  retriever_invoke :
    VectorStore -> nat -> option (string * string) -> string -> result (list Document);
  (** [RecursiveCharacterTextSplitter(chunk_size, chunk_overlap).split_documents] *)
  split_documents : nat -> nat -> list Document -> list Document;
  UnstructuredMarkdownLoader_load : FileSystem -> string -> result (list Document);
  TextLoader_load : FileSystem -> string -> result (list Document);
  UnstructuredFileLoader_load : FileSystem -> string -> result (list Document);
  (** [json.dumps(json.load(f), indent=2)] on the text of a file *)
  json_load_dumps : string -> result string;
  (** [BeautifulSoup(raw, "html.parser").get_text(separator="\n")] *)
  soup_get_text : string -> string;
  (** The tags of [BeautifulSoup(raw, "html.parser")], in document order. *)
  soup_tags : string -> list Tag;
  (** [prompt | llm | parser], its result then validated as a [TestPlan] *)
  plan_chain : LLMCall -> result TestPlan;
  (** [prompt | llm | StrOutputParser()] *)
  script_chain : LLMCall -> result string;
}.

(** ** State *)

Section Engine.
Context `{P : Providers}.

(** The fields of a [RAGEngine]. *)
Record Engine := mkEngine {
  vector_store : VectorStore;
  latest_html_path : option string;
  latest_html_content : option string;
}.

(** The engine and what surrounds it. [llm_calls] and [stdout] record, oldest
    first, the chain invocations made and the lines printed. *)
Record World := mkWorld {
  engine : Engine;
  fs : FileSystem;
  environ : gmap string string;
  llm_calls : list LLMCall;
  stdout : list string;
}.

Definition M (A : Type) : Type := World -> result A * World.

Definition ret {A} (a : A) : M A := fun w => (Ok a, w).
Definition raise {A} (e : PyExc) : M A := fun w => (Raise e, w).
Definition bind {A B} (m : M A) (f : A -> M B) : M B :=
  fun w => match m w with
           | (Ok a, w') => f a w'
           | (Raise e, w') => (Raise e, w')
           end.
(** [try: m except Exception as e: h e] *)
Definition try_except {A} (m : M A) (h : PyExc -> M A) : M A :=
  fun w => match m w with
           | (Ok a, w') => (Ok a, w')
           | (Raise e, w') => h e w'
           end.
#[global] Instance M_ret : MRet M := @ret.
#[global] Instance M_bind : MBind M := fun A B f m => bind m f.

Definition get : M World := fun w => (Ok w, w).
Definition modify (f : World -> World) : M unit := fun w => (Ok tt, f w).
Definition lift {A} (r : result A) : M A := fun w => (r, w).

Definition set_engine (f : Engine -> Engine) : World -> World :=
  fun w => mkWorld (f (engine w)) (fs w) (environ w) (llm_calls w) (stdout w).
Definition set_vector_store (v : VectorStore) : Engine -> Engine :=
  fun e => mkEngine v (latest_html_path e) (latest_html_content e).
Definition set_latest_html_path (p : option string) : Engine -> Engine :=
  fun e => mkEngine (vector_store e) p (latest_html_content e).
Definition set_latest_html_content (c : option string) : Engine -> Engine :=
  fun e => mkEngine (vector_store e) (latest_html_path e) c.
Definition log_llm (c : LLMCall) : World -> World :=
  fun w => mkWorld (engine w) (fs w) (environ w) (llm_calls w ++ [c]) (stdout w).
Definition print (line : string) : M unit :=
  modify (fun w => mkWorld (engine w) (fs w) (environ w) (llm_calls w) (stdout w ++ [line])).

(** [with open(path, "r", encoding="utf-8") as f: f.read()] *)
Definition read_file (path : string) : M string :=
  fun w => match files (fs w) !! path with
           | Some text => (Ok text, w)
           | None => (Raise (OSError path), w)
           end.
(** [os.path.exists] *)
Definition path_exists (f : FileSystem) (path : string) : bool :=
  bool_decide (is_Some (files f !! path)) || bool_decide (is_Some (dirs f !! path)).
(** [os.path.isdir] *)
Definition isdir (f : FileSystem) (path : string) : bool :=
  bool_decide (is_Some (dirs f !! path)).
(** [os.listdir] *)
Definition listdir (path : string) : M (list string) :=
  fun w => match dirs (fs w) !! path with
           | Some names => (Ok names, w)
           | None => (Raise (OSError path), w)
           end.

End Engine.

(** ** The selector pattern of [_validate_selenium_script]

    [By\.(ID|NAME|CSS_SELECTOR)\s*,\s*Q([^Q]+)Q], where Q stands for the
    class of the single and the double quote, as [re.findall] applies it.  Every repetition of the pattern is followed by a character
    outside its class, and the three alternatives start with different
    letters, so the leftmost match at a position is found without
    backtracking. *)

Module SelectorPattern.
Import PyStr.

Definition squote : ascii := ascii_of_nat 39.
Definition dquote : ascii := ascii_of_nat 34.

(** The class Q of the two quote characters *)
Definition is_quote (c : ascii) : bool :=
  bool_decide (c = squote) || bool_decide (c = dquote).

(** [s] without its prefix [p], when it starts with [p]. *)
Fixpoint strip_prefix (p s : string) : option string :=
  match p, s with
  | EmptyString, _ => Some s
  | String a p', String b s' => if decide (a = b) then strip_prefix p' s' else None
  | String _ _, EmptyString => None
  end.

(** The group [(ID|NAME|CSS_SELECTOR)] *)
Definition method_group (s : string) : option (string * string) :=
  match strip_prefix "ID" s with
  | Some r => Some ("ID", r)
  | None =>
      match strip_prefix "NAME" s with
      | Some r => Some ("NAME", r)
      | None =>
          match strip_prefix "CSS_SELECTOR" s with
          | Some r => Some ("CSS_SELECTOR", r)
          | None => None
          end
      end
  end.

(** The longest prefix of characters outside Q, and what follows it. *)
Fixpoint take_non_quote (s : string) : string * string :=
  match s with
  | EmptyString => (EmptyString, EmptyString)
  | String c s' =>
      if is_quote c then (EmptyString, s)
      else let '(a, r) := take_non_quote s' in (String c a, r)
  end.

(** A match of the whole pattern at the start of [s]: the two groups and the
    text left after the match. *)
Definition match_at (s : string) : option (string * string * string) :=
  s1 ← strip_prefix "By." s;
  '(method, s2) ← method_group s1;
  s4 ← strip_prefix "," (lstrip s2);
  match lstrip s4 with
  | String q s6 =>
      if is_quote q then
        match take_non_quote s6 with
        | (EmptyString, _) => None
        | (selector, String _ s8) => Some (method, selector, s8)
        | (_, EmptyString) => None
        end
      else None
  | EmptyString => None
  end.

(** The scan of [findall]: a match is looked for at each position in turn;
    after a match the scan resumes where the match ended, the [skip]
    characters of the match that lie ahead being passed over. *)
Fixpoint findall_from (skip : nat) (s : string) : list (string * string) :=
  match s with
  | EmptyString => []
  | String _ s' =>
      match skip with
      | S k => findall_from k s'
      | O =>
          match match_at s with
          | Some (method, selector, rest) =>
              (method, selector)
                :: findall_from (String.length s - String.length rest - 1) s'
          | None => findall_from O s'
          end
      end
  end.

(** [selector_pattern.findall(script)] *)
Definition findall (script : string) : list (string * string) :=
  findall_from O script.

End SelectorPattern.

(** ** [RAGEngine] *)

Section RAGEngine.
Context `{P : Providers}.
Import PyStr.

Definition nl : string := String (ascii_of_nat 10) EmptyString.

(** [d.setdefault(k, v)] *)
Definition setdefault (k v : string) (d : gmap string string) : gmap string string :=
  match d !! k with
  | Some _ => d
  | None => <[k:=v]> d
  end.

(** [str(e)], as far as the exceptions of this model carry text. *)
Definition exc_str (e : PyExc) : string :=
  match e with
  | ValueError msg => msg
  | OSError path => path
  | HTTPException _ detail => detail
  | ProviderError msg => msg
  end.

(** [__init__], over the collection found at [CHROMA_PATH]. *)
Definition init (persisted : VectorStore) : Engine :=
  mkEngine (Chroma CHROMA_PATH persisted) None None.

(** [api_key or os.getenv("GOOGLE_API_KEY", "AIza-placeholder")] *)
Definition final_key (api_key : option string) (env : gmap string string) : string :=
  match api_key with
  | Some k => if truthy k then k else default "AIza-placeholder" (env !! "GOOGLE_API_KEY")
  | None => default "AIza-placeholder" (env !! "GOOGLE_API_KEY")
  end.

(** [_get_llm]: the key the model is created with. *)
Definition _get_llm (api_key : option string) : M string :=
  w ← get; mret (final_key api_key (environ w)).

Definition is_html_ext (ext : string) : bool :=
  bool_decide (ext = ".html") || bool_decide (ext = ".htm").

(** The two entries of [base_metadata]. *)
Definition base_source_document (file_path : string) : string :=
  PyPath.basename file_path.

Definition base_doc_type (file_path : string) : string :=
  let ext := lower (PyPath.suffix file_path) in
  if is_html_ext ext then "html" else "support".

Definition base_metadata (file_path : string) : gmap string string :=
  {[ "source_document" := base_source_document file_path;
     "doc_type" := base_doc_type file_path ]}.

Definition _load_json (file_path : string) (md : gmap string string) : M (list Document) :=
  data ← read_file file_path;
  flattened ← lift (json_load_dumps data);
  mret [mkDocument flattened md].

Definition _load_html (file_path : string) (md : gmap string string) : M (list Document) :=
  raw_html ← read_file file_path;
  let text := soup_get_text raw_html in
  modify (set_engine (set_latest_html_path (Some file_path)));;
  modify (set_engine (set_latest_html_content (Some raw_html)));;
  mret [mkDocument text md].

(** The [if]/[elif] chain of [_load_with_metadata] that picks a loader. *)
Definition load_by_extension (file_path : string) : M (list Document) :=
  let ext := lower (PyPath.suffix file_path) in
  if bool_decide (ext = ".md") then
    w ← get; lift (UnstructuredMarkdownLoader_load (fs w) file_path)
  else if bool_decide (ext = ".txt") then
    w ← get; lift (TextLoader_load (fs w) file_path)
  else if bool_decide (ext = ".json") then
    _load_json file_path (base_metadata file_path)
  else if is_html_ext ext then
    _load_html file_path (base_metadata file_path)
  else if bool_decide (ext = ".pdf") then
    w ← get; lift (UnstructuredFileLoader_load (fs w) file_path)
  else
    w ← get; lift (TextLoader_load (fs w) file_path).

(** The closing loop of [_load_with_metadata] on one document. *)
Definition with_default_metadata (file_path : string) (doc : Document) : Document :=
  mkDocument (page_content doc)
    (setdefault "doc_type" (base_doc_type file_path)
       (setdefault "source_document" (base_source_document file_path)
          (metadata doc))).

Definition _load_with_metadata (file_path : string) : M (list Document) :=
  docs ← load_by_extension file_path;
  mret (with_default_metadata file_path <$> docs).

(** The loading loop of [ingest_documents]. *)
Fixpoint load_all (file_paths : list string) (documents : list Document)
  : M (list Document) :=
  match file_paths with
  | [] => mret documents
  | file_path :: rest =>
      docs ← _load_with_metadata file_path;
      load_all rest (documents ++ docs)
  end.

Definition store_add (chunks : list Document) : M unit :=
  fun w =>
    let '(r, v) := add_documents chunks (vector_store (engine w)) in
    (r, set_engine (set_vector_store v) w).

Definition ingest_documents (file_paths : list string) : M nat :=
  documents ← load_all file_paths [];
  let chunks := split_documents 1200 150 documents in
  store_add chunks;;
  mret (length chunks).

Definition store_delete_collection : M unit :=
  fun w =>
    let '(r, v) := delete_collection (vector_store (engine w)) in
    (r, set_engine (set_vector_store v) w).

Definition clear_database : M unit :=
  try_except store_delete_collection
    (fun e => print ("Warning: Could not delete collection: " +:+ exc_str e));;
  w ← get;
  modify (set_engine (set_vector_store (Chroma CHROMA_PATH (vector_store (engine w)))));;
  modify (set_engine (set_latest_html_path None));;
  modify (set_engine (set_latest_html_content None)).

Definition format_doc (doc : Document) : string :=
  let source := default "unknown" (metadata doc !! "source_document") in
  "[Source:" +:+ source +:+ "]" +:+ nl +:+ strip (page_content doc).

Definition _format_docs (docs : list Document) : string :=
  match docs with
  | [] => EmptyString
  | _ => join (nl +:+ nl) (format_doc <$> docs)
  end.

(** The comprehension of [_collect_sources], one document at a time. *)
Definition source_of (doc : Document) : option string :=
  match metadata doc !! "source_document" with
  | Some v => if truthy v then Some v else None
  | None => None
  end.

Definition _collect_sources (docs : list Document) : gset string :=
  list_to_set (omap source_of docs).

(** The loop of [_validate_grounding]. *)
Fixpoint invalid_cases (allowed_sources : gset string) (cases : list TestCase)
  : list (string * string) :=
  match cases with
  | [] => []
  | case :: rest =>
      let grounded := strip (grounded_in case) in
      if bool_decide (grounded ∈ allowed_sources)
      then invalid_cases allowed_sources rest
      else (test_id case, grounded) :: invalid_cases allowed_sources rest
  end.

Definition grounding_detail (invalid : list (string * string)) : string :=
  join ", " ((fun '(tid, src) => tid +:+ ":" +:+ (if truthy src then src else "missing"))
               <$> invalid).

Definition _validate_grounding (test_plan : TestPlan) (allowed_sources : gset string)
  : result unit :=
  if bool_decide (allowed_sources = ∅) then Ok tt
  else
    match invalid_cases allowed_sources (test_cases test_plan) with
    | [] => Ok tt
    | invalid =>
        Raise (ValueError ("Grounding validation failed. Unknown sources referenced: "
                           +:+ grounding_detail invalid))
    end.

Definition store_retrieve (k : nat) (filter : option (string * string)) (query : string)
  : M (list Document) :=
  w ← get; lift (retriever_invoke (vector_store (engine w)) k filter query).

Definition generate_test_cases (query : string) (api_key : option string) : M TestPlan :=
  context_docs ← store_retrieve 6 None query;
  let allowed_sources := _collect_sources context_docs in
  let context_text := _format_docs context_docs in
  key ← _get_llm api_key;
  let call := PlanCall key context_text query in
  modify (log_llm call);;
  test_plan ← lift (plan_chain call);
  lift (_validate_grounding test_plan allowed_sources);;
  mret test_plan.

(** The three sets [_validate_selenium_script] reads off the parsed page. *)
Definition html_ids (html_source : string) : gset string :=
  list_to_set (omap (fun tag => match tag_id tag with
                                | Some v => if truthy v then Some v else None
                                | None => None
                                end) (soup_tags html_source)).

Definition html_names (html_source : string) : gset string :=
  list_to_set (omap (fun tag => match tag_name tag with
                                | Some v => if truthy v then Some v else None
                                | None => None
                                end) (soup_tags html_source)).

Definition html_classes (html_source : string) : gset string :=
  list_to_set (concat (omap tag_class (soup_tags html_source))).

(** The loop of [_validate_selenium_script] over the matches. *)
Fixpoint missing_selectors (ids names classes : gset string)
    (matches : list (string * string)) : list (string * string) :=
  match matches with
  | [] => []
  | (method, selector) :: rest =>
      let tl := missing_selectors ids names classes rest in
      if bool_decide (method = "ID") && negb (bool_decide (selector ∈ ids)) then
        (method, selector) :: tl
      else if bool_decide (method = "NAME") && negb (bool_decide (selector ∈ names)) then
        (method, selector) :: tl
      else if bool_decide (method = "CSS_SELECTOR") then
        if startswith "#" selector && negb (bool_decide (drop 1 selector ∈ ids)) then
          (method, selector) :: tl
        else if startswith "." selector && negb (bool_decide (drop 1 selector ∈ classes)) then
          (method, selector) :: tl
        else tl
      else tl
  end.

Definition selector_detail (missing : list (string * string)) : string :=
  join ", " ((fun '(method, selector) => method +:+ ":" +:+ selector) <$> missing).

Definition no_selectors_msg : string :=
  "Generated script lacks identifiable By.ID/NAME/CSS_SELECTOR references. Please regenerate.".

Definition missing_selectors_prefix : string :=
  "Generated script references selectors not present in checkout.html: ".

Definition _validate_selenium_script (script html_source : string) : result unit :=
  match SelectorPattern.findall script with
  | [] => Raise (ValueError no_selectors_msg)
  | matches =>
      match missing_selectors (html_ids html_source) (html_names html_source)
              (html_classes html_source) matches with
      | [] => Ok tt
      | missing => Raise (ValueError (missing_selectors_prefix +:+ selector_detail missing))
      end
  end.

(** [filename.lower().endswith((".html", ".htm"))] *)
Definition is_markup_name (filename : string) : bool :=
  endswith ".html" (lower filename) || endswith ".htm" (lower filename).

(** The loop of [_get_latest_html_content] over the upload directory. *)
Fixpoint scan_uploads (filenames : list string) : M (option string) :=
  match filenames with
  | [] => mret None
  | filename :: rest =>
      if is_markup_name filename then
        let html_path := PyPath.join UPLOAD_DIR filename in
        content ← read_file html_path;
        modify (set_engine (set_latest_html_content (Some content)));;
        modify (set_engine (set_latest_html_path (Some html_path)));;
        mret (Some content)
      else scan_uploads rest
  end.

(** The last branch of [_get_latest_html_content]. *)
Definition scan_upload_dir : M (option string) :=
  w ← get;
  if isdir (fs w) UPLOAD_DIR then
    filenames ← listdir UPLOAD_DIR; scan_uploads filenames
  else mret None.

(** [self.latest_html_path and os.path.exists(self.latest_html_path)] *)
Definition cached_path_exists (w : World) : bool :=
  match latest_html_path (engine w) with
  | Some path => truthy path && path_exists (fs w) path
  | None => false
  end.

Definition _get_latest_html_content : M (option string) :=
  w ← get;
  if truthy_opt (latest_html_content (engine w)) then
    mret (latest_html_content (engine w))
  else if cached_path_exists w then
    content ← read_file (default EmptyString (latest_html_path (engine w)));
    modify (set_engine (set_latest_html_content (Some content)));;
    mret (Some content)
  else scan_upload_dir.

Definition _get_html_documents : M (list Document) :=
  try_except (store_retrieve 3 (Some ("doc_type", "html")) "checkout page structure")
    (fun _ => mret []).

Definition no_html_msg : string :=
  "No checkout HTML is available. Rebuild the knowledge base with checkout.html included.".

(** [html_content or self._get_latest_html_content()] *)
Definition resolve_html_source (html_content : option string) : M (option string) :=
  if truthy_opt html_content then mret html_content else _get_latest_html_content.

(** The clean-up of the model's answer in [generate_selenium_script]. *)
Definition clean_script (script : string) : string :=
  strip (replace "```" "" (replace "```python" "" script)).

Definition generate_selenium_script (test_case : TestCase)
    (html_content : option string) (api_key : option string) : M string :=
  docs ← store_retrieve 3 (Some ("doc_type", "support")) (feature test_case);
  html_context_docs ← _get_html_documents;
  let combined_context := _format_docs (docs ++ html_context_docs) in
  html_source ← resolve_html_source html_content;
  match html_source with
  | Some html =>
      if truthy html then
        key ← _get_llm api_key;
        let call := ScriptCall key (test_id test_case) (test_scenario test_case)
                      (expected_result test_case) html combined_context in
        modify (log_llm call);;
        script ← lift (script_chain call);
        let script := clean_script script in
        lift (_validate_selenium_script script html);;
        mret script
      else raise (ValueError no_html_msg)
  | None => raise (ValueError no_html_msg)
  end.

End RAGEngine.

(** ** The service boundary: [build_knowledge_base] of [backend/app.py] *)

Section App.
Context `{P : Providers}.
Import PyStr.

(** [os.path.splitext(f)[1].lower() in HTML_EXTENSIONS] *)
Definition has_html_extension (f : string) : bool :=
  let ext := lower (PyPath.splitext_ext f) in
  bool_decide (ext = ".html") || bool_decide (ext = ".htm").

Record BuildResponse := mkBuildResponse {
  message : string;
  chunks_processed : nat;
}.

Definition no_files_detail : string :=
  "Upload at least one support document and checkout.html before building the knowledge base.".
Definition no_html_detail : string :=
  "checkout.html (or another HTML file) is required to build the knowledge base.".
Definition no_support_detail : string :=
  "At least one support document (MD, TXT, JSON, etc.) is required alongside the HTML file.".

Definition build_knowledge_base : M BuildResponse :=
  names ← listdir UPLOAD_DIR;
  let files := PyPath.join UPLOAD_DIR <$> names in
  match files with
  | [] => raise (HTTPException 400 no_files_detail)
  | _ =>
      let html_files := filter (fun f => has_html_extension f = true) files in
      let support_files := filter (fun f => has_html_extension f = false) files in
      match html_files with
      | [] => raise (HTTPException 400 no_html_detail)
      | _ =>
          match support_files with
          | [] => raise (HTTPException 400 no_support_detail)
          | _ =>
              clear_database;;
              num_chunks ← ingest_documents files;
              mret (mkBuildResponse "Knowledge Base Built Successfully" num_chunks)
          end
      end
  end.

End App.

(** ** The service boundary: the generation handlers of [backend/app.py] *)

Section Handlers.
Context `{P : Providers}.

(** [generate_test_cases] of [backend/app.py], the handler of
    POST /generate-test-cases. *)
Definition api_generate_test_cases (query : string) (x_api_key : option string)
  : M TestPlan :=
  try_except (generate_test_cases query x_api_key)
    (fun e => raise (HTTPException 500 (exc_str e))).

(** [generate_script] of [backend/app.py], the handler of
    POST /generate-script; the value is the [script_code] of its response. *)
Definition api_generate_script (test_case : TestCase) (html_content : option string)
    (x_api_key : option string) : M string :=
  try_except (generate_selenium_script test_case html_content x_api_key)
    (fun e => raise (HTTPException 500 (exc_str e))).

End Handlers.

(** ** Operations of the engine, in sequence *)

Section Operations.
Context `{P : Providers}.
Import PyStr.

(** The calls a client can make on one engine. *)
Inductive Op :=
| OpLoad (file_path : string)
| OpClear
| OpPlan (query : string) (api_key : option string)
| OpScript (test_case : TestCase) (html_content : option string) (api_key : option string).

(** One call: whatever it returns or raises, the state it leaves is kept. *)
Definition run_op (op : Op) (w : World) : World :=
  match op with
  | OpLoad file_path => snd (_load_with_metadata file_path w)
  | OpClear => snd (clear_database w)
  | OpPlan query api_key => snd (generate_test_cases query api_key w)
  | OpScript test_case html_content api_key =>
      snd (generate_selenium_script test_case html_content api_key w)
  end.

Definition run_ops (ops : list Op) (w : World) : World :=
  fold_left (fun w op => run_op op w) ops w.

(** The Cached Page State: [(latest_html_path, latest_html_content)]. *)
Definition cached_page (w : World) : option string * option string :=
  (latest_html_path (engine w), latest_html_content (engine w)).

Definition is_script_op (op : Op) : bool :=
  match op with OpScript _ _ _ => true | _ => false end.

(** What the cache should hold after [op] if it only follows loads and
    clears: a page-markup file that could be read replaces it, a clear
    empties it, anything else leaves it. *)
Definition markup_after (f : FileSystem) (cur : option string * option string) (op : Op)
  : option string * option string :=
  match op with
  | OpLoad file_path =>
      if is_html_ext (lower (PyPath.suffix file_path)) then
        match files f !! file_path with
        | Some raw => (Some file_path, Some raw)
        | None => cur
        end
      else cur
  | OpClear => (None, None)
  | OpPlan _ _ => cur
  | OpScript _ _ _ => cur
  end.

Definition most_recent_markup (f : FileSystem) (cur : option string * option string)
    (ops : list Op) : option string * option string :=
  fold_left (markup_after f) ops cur.

End Operations.

(** ** Stand-ins for the libraries, for running the engine on examples *)

Module Stub.

(** A store that is the list of its documents; the chains answer with fixed
    values, the page parser with a fixed list of tags. *)
Definition providers (retrieved : result (list Document)) (deleted : result unit)
    (plan : result TestPlan) (script : result string) (tags : list Tag) : Providers :=
  {| VectorStore := list Document;
     Chroma := fun _ v => v;
     delete_collection := fun v => (deleted, match deleted with Ok _ => [] | Raise _ => v end);
     add_documents := fun chunks v => (Ok tt, (v ++ chunks)%list);
     retriever_invoke := fun _ _ _ _ => retrieved;
     split_documents := fun _ _ docs => docs;
     UnstructuredMarkdownLoader_load := fun f p =>
       match files f !! p with
       | Some t => Ok [mkDocument t {[ "source" := p ]}]
       | None => Raise (OSError p)
       end;
     TextLoader_load := fun f p =>
       match files f !! p with
       | Some t => Ok [mkDocument t {[ "source" := p ]}]
       | None => Raise (OSError p)
       end;
     UnstructuredFileLoader_load := fun f p =>
       match files f !! p with
       | Some t => Ok [mkDocument t {[ "source" := p; "doc_type" := "pdf" ]}]
       | None => Raise (OSError p)
       end;
     json_load_dumps := fun t => Ok t;
     soup_get_text := fun raw => raw;
     soup_tags := fun _ => tags;
     plan_chain := fun _ => plan;
     script_chain := fun _ => script |}.

Definition world `{P : Providers} (v : VectorStore) (path content : option string)
    (f : FileSystem) : World :=
  mkWorld (mkEngine v path content) f ∅ [] [].

Definition case1 (grounded : string) : TestCase :=
  mkTestCase "TC-1" "Discount code" "Apply a valid code" "Total is reduced" grounded.

Definition case2 (grounded : string) : TestCase :=
  mkTestCase "TC-2" "Discount code" "Apply an unknown code" "An error is shown" grounded.

Definition chunk (text source : string) : Document :=
  mkDocument text {[ "source_document" := source; "doc_type" := "support" ]}.

(** A plan citing a file nobody retrieved. *)
Definition invented_plan : TestPlan :=
  mkTestPlan ["Promo codes"] [case1 "invented.md"].

(** A plan with one grounded case between two that are not. *)
Definition mixed_plan : TestPlan :=
  mkTestPlan ["Promo codes"]
    [case1 "invented.md"; mkTestCase "TC-3" "Discount code" "s" "r" " spec.md "; case2 ""].

Definition page : string := "<input id=promo-code name=promo><button id=apply-btn class=btn>".

Definition page_tags : list Tag :=
  [ mkTag (Some "promo-code") (Some "promo") None;
    mkTag (Some "apply-btn") None (Some ["btn"]) ].

Definition uploads (names : list string) (contents : list (string * string)) : FileSystem :=
  mkFS (list_to_map contents) {[ UPLOAD_DIR := names ]}.

End Stub.

(** ** Vocabulary of the statements *)

Section Vocabulary.
Context `{P : Providers}.
Import PyStr.

(** The chain invocation a call of [generate_test_cases] makes once
    retrieval has returned [docs]. *)
Definition plan_call (query : string) (api_key : option string) (w : World)
    (docs : list Document) : LLMCall :=
  PlanCall (final_key api_key (environ w)) (_format_docs docs) query.

(** How a violation is written in the error text. *)
Definition violation_text (c : TestCase) : string :=
  let src := strip (grounded_in c) in
  test_id c +:+ ":" +:+ (if truthy src then src else "missing").

(** The loaders of this engine, [_load_html] and [_load_json], hand the base
    metadata to the document they build. *)
Definition own_loader (ext : string) : bool :=
  is_html_ext ext || bool_decide (ext = ".json").

(** The first file of a listing whose name ends in .html or .htm, as a path
    in the upload directory. *)
Fixpoint first_markup (filenames : list string) : option string :=
  match filenames with
  | [] => None
  | filename :: rest =>
      if is_markup_name filename then Some (PyPath.join UPLOAD_DIR filename)
      else first_markup rest
  end.

Definition first_markup_upload (f : FileSystem) : option string :=
  match dirs f !! UPLOAD_DIR with
  | Some filenames => first_markup filenames
  | None => None
  end.

(** A file name that ends in .html or .htm once lower-cased. *)
Definition markup_named (filename : string) : Prop :=
  ∃ stem, lower filename = stem +:+ ".html" ∨ lower filename = stem +:+ ".htm".

(** Reading the markup at [path]. *)
Definition read_markup (f : FileSystem) (path : string) : result (option string) :=
  match files f !! path with
  | Some content => Ok (Some content)
  | None => Raise (OSError path)
  end.

(** The documents [_get_html_documents] returns. *)
Definition html_context_docs (w : World) : list Document :=
  match retriever_invoke (vector_store (engine w)) 3 (Some ("doc_type", "html"))
          "checkout page structure" with
  | Ok docs => docs
  | Raise _ => []
  end.

(** The chain invocation of [generate_selenium_script] once the support
    retrieval has returned [docs] and the markup resolved to [html]. *)
Definition script_call (test_case : TestCase) (api_key : option string) (w : World)
    (docs : list Document) (html : string) : LLMCall :=
  ScriptCall (final_key api_key (environ w)) (test_id test_case)
    (test_scenario test_case) (expected_result test_case) html
    (_format_docs (docs ++ html_context_docs w)%list).

(** When the loop of [_validate_selenium_script] reports a match. *)
Definition offending (ids names classes : gset string) (method selector : string) : Prop :=
  (method = "ID" ∧ selector ∉ ids)
  ∨ (method = "NAME" ∧ selector ∉ names)
  ∨ (method = "CSS_SELECTOR"
     ∧ ((startswith "#" selector = true ∧ drop 1 selector ∉ ids)
        ∨ (startswith "." selector = true ∧ drop 1 selector ∉ classes))).

Definition reported (ids names classes : gset string) (method selector : string) : bool :=
  bool_decide (method = "ID") && negb (bool_decide (selector ∈ ids))
  || bool_decide (method = "NAME") && negb (bool_decide (selector ∈ names))
  || bool_decide (method = "CSS_SELECTOR")
     && (startswith "#" selector && negb (bool_decide (drop 1 selector ∈ ids))
         || startswith "." selector && negb (bool_decide (drop 1 selector ∈ classes))).

(** The attribute values of a parsed page: the values of the [id]
    attributes, of the [name] attributes, and the tokens of the [class]
    attributes of its tags. *)
Definition id_values (tags : list Tag) (s : string) : Prop :=
  ∃ tag, tag ∈ tags ∧ tag_id tag = Some s.

Definition name_values (tags : list Tag) (s : string) : Prop :=
  ∃ tag, tag ∈ tags ∧ tag_name tag = Some s.

Definition class_tokens (tags : list Tag) (s : string) : Prop :=
  ∃ tag tokens, tag ∈ tags ∧ tag_class tag = Some tokens ∧ s ∈ tokens.

(** A lookup that names nothing on the page: a [By.ID] literal that is no
    id value, a [By.NAME] literal that is no name value, a CSS selector
    starting with [#] whose suffix is empty or no id value, or one starting
    with [.] whose suffix is no class token. *)
Definition absent_from_page (tags : list Tag) (method selector : string) : Prop :=
  (method = "ID" ∧ ¬ id_values tags selector)
  ∨ (method = "NAME" ∧ ¬ name_values tags selector)
  ∨ (method = "CSS_SELECTOR"
     ∧ ((startswith "#" selector = true
         ∧ (drop 1 selector = "" ∨ ¬ id_values tags (drop 1 selector)))
        ∨ (startswith "." selector = true ∧ ¬ class_tokens tags (drop 1 selector)))).

(** The Markdown code fence that [generate_selenium_script] removes. *)
Definition backtick : ascii := ascii_of_nat 96.
Definition fence : string := String backtick (String backtick (String backtick EmptyString)).

End Vocabulary.

(** ** Example data *)

Section ExampleData.
Import PyStr.

Definition retrieved_spec : list Document :=
  [Stub.chunk "The checkout page has a field named promo." "spec.md"].

Definition checkout_path : string := "data/uploads/checkout.html".

Definition checkout_uploads : FileSystem :=
  Stub.uploads ["spec.md"; "checkout.html"]
    [("data/uploads/spec.md", "The checkout page has a field named promo.");
     (checkout_path, Stub.page)].

Definition support_only : FileSystem :=
  Stub.uploads ["spec.md"; "rules.JSON"]
    [("data/uploads/spec.md", "The checkout page has a field named promo.");
     ("data/uploads/rules.JSON", "{}")].

Definition guide_path : string := "data/uploads/Guide.PDF".

Definition guide_fs : FileSystem := Stub.uploads ["Guide.PDF"] [(guide_path, "How to pay.")].

(** The stub PDF loader sets [doc_type] itself: it is kept, and only
    [source_document] is filled in. *)
Definition guide_docs : list Document :=
  [mkDocument "How to pay."
     {[ "source" := guide_path; "doc_type" := "pdf"; "source_document" := "Guide.PDF" ]}].

Definition good_script : string :=
  "driver.find_element(By.ID, 'promo-code').send_keys('SAVE10')
driver.find_element(By.NAME ,'promo')
driver.find_element(By.CSS_SELECTOR, '#apply-btn').click()
driver.find_element(By.CSS_SELECTOR, 'button.btn > span')".

Definition bad_script : string :=
  "```python
driver.find_element(By.ID, 'promo-code')
driver.find_element(By.ID, 'ghost')
driver.find_element(By.XPATH, '//nowhere')
driver.find_element(By.CSS_SELECTOR, '.nope')
driver.find_element(By.CSS_SELECTOR, 'div.nope')
```".

(** A script whose lookups all name something on the example page. *)
Definition present_script : string :=
  "driver.find_element(By.NAME, 'promo')
driver.find_element(By.CSS_SELECTOR, '.btn')".

(** A plan whose cases all cite the retrieved file. *)
Definition grounded_plan : TestPlan :=
  mkTestPlan ["Promo codes"] [Stub.case1 " spec.md "; Stub.case2 "spec.md"].

Definition two_pages : FileSystem :=
  Stub.uploads ["a.html"; "b.HTM"; "spec.md"]
    [("data/uploads/a.html", "<a>"); ("data/uploads/b.HTM", "<b>");
     ("data/uploads/spec.md", "The checkout page has a field named promo.")].

Definition fenced_script : string :=
  "```python" +:+ String (ascii_of_nat 10) good_script +:+ String (ascii_of_nat 10) "```".

End ExampleData.

(** * Properties *)

(** ** Strings *)

Section StringFacts.
Import PyStr.

Lemma append_nil (s : string) : EmptyString +:+ s = s.
Proof. reflexivity. Qed.

Lemma append_cons (c : ascii) (a s : string) : String c a +:+ s = String c (a +:+ s).
Proof. reflexivity. Qed.

Lemma startswith_app (p s : string) : startswith p (p +:+ s) = true.
Proof.
  induction p as [|a p IH]; [done|].
  rewrite append_cons. simpl. destruct (decide (a = a)); [exact IH | done].
Qed.

Lemma contains_startswith (x s : string) : startswith x s = true → contains x s = true.
Proof. intros H. destruct s; simpl; by rewrite H. Qed.

Lemma contains_app (x pre post : string) : contains x (pre +:+ x +:+ post) = true.
Proof.
  induction pre as [|c pre IH].
  - rewrite append_nil. apply contains_startswith, startswith_app.
  - rewrite append_cons. simpl. rewrite IH. apply orb_true_r.
Qed.

Lemma app_assoc_str (a b c : string) : (a +:+ b) +:+ c = a +:+ (b +:+ c).
Proof.
  induction a as [|x a IH]; [done|]. by rewrite !append_cons, IH.
Qed.

Lemma app_empty_r (a : string) : a +:+ EmptyString = a.
Proof.
  induction a as [|x a IH]; [done|]. by rewrite append_cons, IH.
Qed.

(** Every item of a joined list occurs in the result. *)
Lemma join_split (sep x : string) (l : list string) :
  x ∈ l → ∃ pre post, join sep l = pre +:+ x +:+ post.
Proof.
  induction l as [|y l IH]; intros Hin; [by apply elem_of_nil in Hin|].
  apply elem_of_cons in Hin as [->|Hin].
  - destruct l as [|z l].
    + exists EmptyString, EmptyString. simpl. by rewrite append_nil, app_empty_r.
    + exists EmptyString, (sep +:+ join sep (z :: l)). done.
  - destruct (IH Hin) as (pre & post & E).
    destruct l as [|z l]; [by apply elem_of_nil in Hin|].
    exists (y +:+ sep +:+ pre), post.
    change (join sep (y :: z :: l)) with (y +:+ sep +:+ join sep (z :: l)).
    rewrite E. by rewrite !app_assoc_str.
Qed.

Lemma contains_join (sep x : string) (l : list string) (pre : string) :
  x ∈ l → contains x (pre +:+ join sep l) = true.
Proof.
  intros Hin. destruct (join_split sep x l Hin) as (a & b & ->).
  rewrite <- app_assoc_str. apply contains_app.
Qed.

End StringFacts.

(** ** Running the monad *)

Ltac run :=
  unfold mbind, M_bind, bind, mret, M_ret, ret, lift, get, modify, raise, try_except;
  simpl.

(** Settling a closed decidable fact by evaluation. *)
Ltac decide_by_compute := refine (bool_decide_unpack _ _); vm_compute; exact I.

(** ** Plan generation *)

Section PlanGeneration.
Context `{P : Providers}.
Import PyStr.

Lemma generate_test_cases_unfold query api_key w docs :
  retriever_invoke (vector_store (engine w)) 6 None query = Ok docs →
  generate_test_cases query api_key w =
    match plan_chain (plan_call query api_key w docs) with
    | Ok plan =>
        match _validate_grounding plan (_collect_sources docs) with
        | Ok _ => (Ok plan, log_llm (plan_call query api_key w docs) w)
        | Raise e => (Raise e, log_llm (plan_call query api_key w docs) w)
        end
    | Raise e => (Raise e, log_llm (plan_call query api_key w docs) w)
    end.
Proof.
  intros Hdocs. unfold generate_test_cases, store_retrieve, _get_llm. run.
  rewrite Hdocs. unfold plan_call. simpl.
  destruct (plan_chain _) as [plan|e]; [|done].
  by destruct (_validate_grounding _ _).
Qed.

Lemma invalid_cases_nil allowed cases :
  invalid_cases allowed cases = [] ↔
  ∀ c, c ∈ cases → strip (grounded_in c) ∈ allowed.
Proof.
  induction cases as [|c cases IH]; simpl.
  - split; [intros _ c Hc; by apply elem_of_nil in Hc | done].
  - case_bool_decide as Hc.
    + rewrite IH. split.
      * intros H c' [->|Hin]%elem_of_cons; auto.
      * intros H c' Hin. apply H. by apply elem_of_cons; right.
    + split; [done|]. intros H. exfalso. apply Hc, H. by apply elem_of_cons; left.
Qed.

Lemma invalid_cases_elem allowed cases c :
  c ∈ cases → strip (grounded_in c) ∉ allowed →
  (test_id c, strip (grounded_in c)) ∈ invalid_cases allowed cases.
Proof.
  induction cases as [|c' cases IH]; intros Hin Hno; [by apply elem_of_nil in Hin|].
  simpl. apply elem_of_cons in Hin as [<-|Hin].
  - rewrite bool_decide_eq_false_2 by done. by apply elem_of_cons; left.
  - case_bool_decide; [by apply IH|]. apply elem_of_cons; right. by apply IH.
Qed.

Lemma validate_grounding_ok plan allowed :
  _validate_grounding plan allowed = Ok tt ↔
  allowed = ∅ ∨ ∀ c, c ∈ test_cases plan → strip (grounded_in c) ∈ allowed.
Proof.
  unfold _validate_grounding. case_bool_decide as He.
  - split; auto.
  - rewrite <- invalid_cases_nil.
    destruct (invalid_cases allowed (test_cases plan)); split; try done.
    + by right.
    + intros [?|?]; done.
Qed.

Lemma validate_grounding_raise plan allowed :
  allowed ≠ ∅ →
  (∃ c, c ∈ test_cases plan ∧ strip (grounded_in c) ∉ allowed) →
  ∃ msg, _validate_grounding plan allowed = Raise (ValueError msg) ∧
         ∀ c, c ∈ test_cases plan → strip (grounded_in c) ∉ allowed →
              contains (violation_text c) msg = true.
Proof.
  intros He (c0 & Hin0 & Hno0). unfold _validate_grounding.
  rewrite bool_decide_eq_false_2 by done.
  pose proof (invalid_cases_elem allowed _ c0 Hin0 Hno0) as H0.
  destruct (invalid_cases allowed (test_cases plan)) as [|i inv] eqn:E;
    [by apply elem_of_nil in H0|].
  eexists. split; [reflexivity|].
  intros c Hin Hno. unfold grounding_detail. apply contains_join.
  rewrite <- E. apply list_elem_of_fmap.
  exists (test_id c, strip (grounded_in c)). split; [done|].
  by apply invalid_cases_elem.
Qed.

Lemma collect_sources_empty (docs : list Document) :
  _collect_sources docs = ∅ ↔
  ∀ d, d ∈ docs → truthy_opt (metadata d !! "source_document") = false.
Proof.
  unfold _collect_sources. split.
  - intros He d Hd.
    destruct (metadata d !! "source_document") as [v|] eqn:Ev; [|done].
    simpl. destruct (truthy v) eqn:Et; [|done].
    assert (v ∈ (list_to_set (omap source_of docs) : gset string)) as Hv.
    { apply elem_of_list_to_set, list_elem_of_omap. exists d. split; [done|].
      unfold source_of. by rewrite Ev, Et. }
    rewrite He in Hv. by apply not_elem_of_empty in Hv.
  - intros H. apply set_eq. intros v. split; [|by intros ?%not_elem_of_empty].
    intros (d & Hd & Hs)%elem_of_list_to_set%list_elem_of_omap.
    specialize (H d Hd). unfold source_of in Hs.
    destruct (metadata d !! "source_document") as [v'|]; [|done].
    simpl in H. by rewrite H in Hs.
Qed.

(** C1 (as amended). Provided the Allowed-Sources Set of the call, the
    non-empty [source_document] values of the retrieved chunks, is not empty:
    every test case of a plan that [generate_test_cases] returns has its
    trimmed [grounded_in] in that set; and when the model's plan has a case
    outside it, the call raises a [ValueError] whose text contains
    [test_id:source] (an empty source written [missing]) for every such
    case, not only the first. *)
Theorem grounding_enforced_when_sources_retrieved
    (query : string) (api_key : option string) (w : World) (docs : list Document) :
  retriever_invoke (vector_store (engine w)) 6 None query = Ok docs →
  _collect_sources docs ≠ ∅ →
  (∀ plan w', generate_test_cases query api_key w = (Ok plan, w') →
     ∀ c, c ∈ test_cases plan → strip (grounded_in c) ∈ _collect_sources docs)
  ∧ (∀ plan, plan_chain (plan_call query api_key w docs) = Ok plan →
       (∃ c, c ∈ test_cases plan ∧ strip (grounded_in c) ∉ _collect_sources docs) →
       ∃ msg w', generate_test_cases query api_key w = (Raise (ValueError msg), w')
         ∧ ∀ c, c ∈ test_cases plan → strip (grounded_in c) ∉ _collect_sources docs →
                contains (violation_text c) msg = true).
Proof.
  intros Hdocs Hne. rewrite (generate_test_cases_unfold _ _ _ _ Hdocs). split.
  - intros plan w' Hrun.
    destruct (plan_chain _) as [plan'|e]; [|done].
    destruct (_validate_grounding plan' _) as [[]|e] eqn:Hv; [|done].
    injection Hrun as -> _.
    apply validate_grounding_ok in Hv as [He|Hall]; [done | exact Hall].
  - intros plan Hplan Hbad. rewrite Hplan.
    destruct (validate_grounding_raise plan _ Hne Hbad) as (msg & -> & Hmsg).
    by eexists _, _.
Qed.

(** C3. When the Allowed-Sources Set of the call is empty, grounding
    validation is skipped: the call returns the plan the model produced,
    whatever its [grounded_in] fields hold. *)
Theorem grounding_skipped_when_no_sources
    (query : string) (api_key : option string) (w : World) (docs : list Document)
    (plan : TestPlan) :
  retriever_invoke (vector_store (engine w)) 6 None query = Ok docs →
  _collect_sources docs = ∅ →
  plan_chain (plan_call query api_key w docs) = Ok plan →
  generate_test_cases query api_key w = (Ok plan, log_llm (plan_call query api_key w docs) w).
Proof.
  intros Hdocs He Hplan.
  rewrite (generate_test_cases_unfold _ _ _ _ Hdocs), Hplan.
  unfold _validate_grounding. by rewrite bool_decide_eq_true_2.
Qed.

Lemma generate_test_cases_world (query : string) (api_key : option string) (w : World) :
  ∃ calls, snd (generate_test_cases query api_key w)
           = mkWorld (engine w) (fs w) (environ w) calls (stdout w).
Proof.
  unfold generate_test_cases, store_retrieve, _get_llm. run.
  destruct (retriever_invoke _ _ _ _) as [docs|e]; simpl.
  - destruct (plan_chain _) as [plan|e]; simpl; [|by eexists].
    destruct (_validate_grounding _ _); by eexists.
  - exists (llm_calls w). by destruct w.
Qed.

(** C10. [generate_test_cases], whether it returns or raises, leaves the
    engine as it found it: the vector store, [latest_html_path] and
    [latest_html_content] are unchanged (and so is the file system). *)
Theorem generate_test_cases_preserves_engine
    (query : string) (api_key : option string) (w : World) :
  engine (snd (generate_test_cases query api_key w)) = engine w
  ∧ fs (snd (generate_test_cases query api_key w)) = fs w.
Proof.
  destruct (generate_test_cases_world query api_key w) as [calls ->]. done.
Qed.

End PlanGeneration.

(** ** Loading, clearing and the cached page *)

Section CachedPage.
Context `{P : Providers}.
Import PyStr.

Lemma clear_database_run (w : World) :
  clear_database w =
    (Ok tt,
     mkWorld
       (mkEngine (Chroma CHROMA_PATH (snd (delete_collection (vector_store (engine w)))))
          None None)
       (fs w) (environ w) (llm_calls w)
       (match fst (delete_collection (vector_store (engine w))) with
        | Ok _ => stdout w
        | Raise e => (stdout w ++ ["Warning: Could not delete collection: " +:+ exc_str e])%list
        end)).
Proof.
  unfold clear_database, store_delete_collection, print. run.
  by destruct (delete_collection _) as [[[]|e] v].
Qed.


Lemma setdefault_base (file_path : string) :
  setdefault "doc_type" (base_doc_type file_path)
    (setdefault "source_document" (base_source_document file_path)
       (base_metadata file_path))
  = base_metadata file_path.
Proof.
  unfold base_metadata.
  unfold setdefault at 2. rewrite lookup_insert_eq.
  unfold setdefault. rewrite lookup_insert_ne by done.
  by rewrite lookup_singleton_eq.
Qed.

Lemma is_html_ext_cases (ext : string) :
  is_html_ext ext = true → ext = ".html" ∨ ext = ".htm".
Proof.
  unfold is_html_ext. intros [H|H]%orb_true_iff; apply bool_decide_eq_true in H; auto.
Qed.

(** What loading one file does, by the kind of the file. *)
Lemma load_html_run (file_path : string) (w : World) :
  is_html_ext (lower (PyPath.suffix file_path)) = true →
  _load_with_metadata file_path w =
    match files (fs w) !! file_path with
    | Some raw =>
        (Ok [mkDocument (soup_get_text raw) (base_metadata file_path)],
         set_engine (set_latest_html_content (Some raw))
           (set_engine (set_latest_html_path (Some file_path)) w))
    | None => (Raise (OSError file_path), w)
    end.
Proof.
  intros Hext. unfold _load_with_metadata, load_by_extension. rewrite Hext.
  assert (bool_decide (lower (PyPath.suffix file_path) = ".md") = false
          ∧ bool_decide (lower (PyPath.suffix file_path) = ".txt") = false
          ∧ bool_decide (lower (PyPath.suffix file_path) = ".json") = false)
    as (-> & -> & ->).
  { apply is_html_ext_cases in Hext as [->| ->]; done. }
  unfold _load_html, read_file. run.
  destruct (files (fs w) !! file_path) as [raw|]; [|done].
  simpl. unfold with_default_metadata. simpl. by rewrite setdefault_base.
Qed.

Lemma load_other_world (file_path : string) (w : World) :
  is_html_ext (lower (PyPath.suffix file_path)) = false →
  snd (_load_with_metadata file_path w) = w.
Proof.
  intros Hext. unfold _load_with_metadata, load_by_extension. rewrite Hext.
  unfold _load_json, read_file. run.
  repeat case_bool_decide; simpl;
    try (by destruct (UnstructuredMarkdownLoader_load _ _));
    try (by destruct (TextLoader_load _ _));
    try (by destruct (UnstructuredFileLoader_load _ _)).
  destruct (files (fs w) !! file_path) as [data|]; simpl; [|done].
  by destruct (json_load_dumps data).
Qed.

Lemma run_op_cached_page (op : Op) (w : World) :
  is_script_op op = false →
  cached_page (run_op op w) = markup_after (fs w) (cached_page w) op
  ∧ fs (run_op op w) = fs w.
Proof.
  intros Hop. destruct op as [file_path| |query api_key|]; [| | |done]; simpl.
  - destruct (is_html_ext (lower (PyPath.suffix file_path))) eqn:Hext.
    + rewrite (load_html_run _ _ Hext).
      by destruct (files (fs w) !! file_path).
    + by rewrite (load_other_world _ _ Hext).
  - by rewrite clear_database_run.
  - by destruct (generate_test_cases_world query api_key w) as [calls ->].
Qed.

Lemma run_ops_cached_page (ops : list Op) (w : World) :
  Forall (fun op => is_script_op op = false) ops →
  cached_page (run_ops ops w) = most_recent_markup (fs w) (cached_page w) ops.
Proof.
  revert w. induction ops as [|op ops IH]; intros w Hops; [done|].
  apply Forall_cons in Hops as [Hop Hops].
  destruct (run_op_cached_page op w Hop) as [Hc Hf].
  unfold run_ops, most_recent_markup in *. simpl.
  by rewrite IH, Hc, Hf.
Qed.

(** C8 (as amended). Loading a page-markup file that can be read sets the
    cached page to that path and to the raw markup, while the document
    returned holds the extracted text; [clear_database] empties both fields;
    and after any sequence of file loads, clears and plan generations the
    cached page is the one [most_recent_markup] computes: the most recently
    loaded page-markup file since the last clear, what was cached at the
    start if neither occurred, empty after a clear.  (Script generation is
    left out of the sequence: its lazy recovery may fill the cache.) *)
Theorem cached_page_follows_loads_and_clears :
  (∀ file_path w raw,
     is_html_ext (lower (PyPath.suffix file_path)) = true →
     files (fs w) !! file_path = Some raw →
     ∃ w', _load_with_metadata file_path w
           = (Ok [mkDocument (soup_get_text raw) (base_metadata file_path)], w')
       ∧ cached_page w' = (Some file_path, Some raw))
  ∧ (∀ w, cached_page (snd (clear_database w)) = (None, None))
  ∧ (∀ ops w,
       Forall (fun op => is_script_op op = false) ops →
       cached_page (run_ops ops w) = most_recent_markup (fs w) (cached_page w) ops).
Proof.
  split; [|split].
  - intros file_path w raw Hext Hraw. rewrite (load_html_run _ _ Hext), Hraw.
    by eexists.
  - intros w. by rewrite clear_database_run.
  - apply run_ops_cached_page.
Qed.

End CachedPage.

(** ** The build handler *)

Section Build.
Context `{P : Providers}.
Import PyStr.

Lemma filter_nil_of_Forall {A} (f : A → bool) (b : bool) (l : list A) :
  Forall (fun x => f x = negb b) l → filter (fun x => f x = b) l = [].
Proof.
  induction 1 as [|x l Hx _ IH]; [done|].
  rewrite filter_cons. destruct (decide (f x = b)) as [E|_]; [|exact IH].
  rewrite E in Hx. by destruct b.
Qed.

(** C5. When the upload directory is empty, holds no page-markup file or
    holds no support file, [build_knowledge_base] raises an HTTP 400 error
    and leaves everything as it was: neither [clear_database] nor
    [ingest_documents] has run, so the store and the cached page are
    untouched. *)
Theorem build_rejected_before_store_mutation (w : World) (names : list string) :
  dirs (fs w) !! UPLOAD_DIR = Some names →
  names = []
  ∨ Forall (fun n => has_html_extension (PyPath.join UPLOAD_DIR n) = false) names
  ∨ Forall (fun n => has_html_extension (PyPath.join UPLOAD_DIR n) = true) names →
  ∃ detail, build_knowledge_base w = (Raise (HTTPException 400 detail), w).
Proof.
  intros Hdir Hbad. unfold build_knowledge_base, listdir. run. rewrite Hdir.
  destruct names as [|n names]; [by eexists|].
  set (paths := PyPath.join UPLOAD_DIR <$> n :: names).
  change (PyPath.join UPLOAD_DIR n :: (PyPath.join UPLOAD_DIR <$> names)) with paths.
  assert (paths = PyPath.join UPLOAD_DIR n :: (PyPath.join UPLOAD_DIR <$> names)) as Hp by done.
  destruct Hbad as [Hbad|[Hbad|Hbad]]; [done| |].
  - assert (filter (fun f => has_html_extension f = true) paths = []) as ->.
    { apply (filter_nil_of_Forall has_html_extension true).
      unfold paths. by apply Forall_fmap. }
    rewrite Hp. by eexists.
  - assert (filter (fun f => has_html_extension f = false) paths = []) as ->.
    { apply (filter_nil_of_Forall has_html_extension false).
      unfold paths. by apply Forall_fmap. }
    rewrite Hp. destruct (filter _ _); by eexists.
Qed.

End Build.

(** ** The document loader *)

Section Loader.
Context `{P : Providers}.
Import PyStr.

Lemma lookup_setdefault (k v : string) (d : gmap string string) (k' : string) :
  setdefault k v d !! k' = if decide (k = k') then Some (default v (d !! k)) else d !! k'.
Proof.
  unfold setdefault. destruct (d !! k) as [x|] eqn:E.
  - case_decide; [by subst|done].
  - case_decide; [subst; by rewrite lookup_insert_eq | by rewrite lookup_insert_ne].
Qed.

Lemma with_default_metadata_lookup (file_path : string) (doc : Document) :
  page_content (with_default_metadata file_path doc) = page_content doc
  ∧ metadata (with_default_metadata file_path doc) !! "doc_type"
    = Some (default (base_doc_type file_path) (metadata doc !! "doc_type"))
  ∧ metadata (with_default_metadata file_path doc) !! "source_document"
    = Some (default (base_source_document file_path) (metadata doc !! "source_document"))
  ∧ ∀ k, k ≠ "doc_type" → k ≠ "source_document" →
         metadata (with_default_metadata file_path doc) !! k = metadata doc !! k.
Proof.
  unfold with_default_metadata. simpl. split; [done|]. split; [|split].
  - rewrite lookup_setdefault. rewrite decide_True by done.
    by rewrite lookup_setdefault, decide_False by done.
  - rewrite lookup_setdefault, decide_False by done.
    rewrite lookup_setdefault. by rewrite decide_True by done.
  - intros k H1 H2. by rewrite !lookup_setdefault, !decide_False by done.
Qed.

Lemma load_by_extension_html (file_path : string) :
  is_html_ext (lower (PyPath.suffix file_path)) = true →
  load_by_extension file_path = _load_html file_path (base_metadata file_path).
Proof.
  intros Hext. unfold load_by_extension. rewrite Hext.
  by apply is_html_ext_cases in Hext as [->| ->].
Qed.

Lemma load_by_extension_json (file_path : string) :
  lower (PyPath.suffix file_path) = ".json" →
  load_by_extension file_path = _load_json file_path (base_metadata file_path).
Proof. intros Hext. unfold load_by_extension. by rewrite Hext. Qed.

Lemma load_by_extension_own (file_path : string) (w w' : World) (docs : list Document) :
  own_loader (lower (PyPath.suffix file_path)) = true →
  load_by_extension file_path w = (Ok docs, w') →
  ∀ d, d ∈ docs → metadata d = base_metadata file_path.
Proof.
  unfold own_loader. intros [Hext|Hext%bool_decide_eq_true]%orb_true_iff.
  - rewrite (load_by_extension_html _ Hext). unfold _load_html, read_file. run.
    destruct (files (fs w) !! file_path) as [raw|]; [|done].
    intros [= <- _] d. by intros ->%list_elem_of_singleton.
  - rewrite (load_by_extension_json _ Hext). unfold _load_json, read_file. run.
    destruct (files (fs w) !! file_path) as [data|]; [|done]. simpl.
    destruct (json_load_dumps data) as [flattened|]; [|done].
    intros [= <- _] d. by intros ->%list_elem_of_singleton.
Qed.

(** C7. The documents [_load_with_metadata] returns are those of the loader
    picked for the file with two defaults applied: [doc_type] is what the
    loader set, else "html" when the lower-cased extension is .html or .htm
    and "support" otherwise; [source_document] is what the loader set, else
    the base name of the path; no other key and no text changes.  A file
    whose lower-cased extension is .html or .htm is loaded by the engine
    itself and every document of it carries exactly [doc_type] "html" and
    the base name; a .json file likewise with "support"; for every other
    file [doc_type] is what the loader set, else "support". *)
Theorem loader_metadata_defaults (file_path : string) (w w' : World) (docs : list Document) :
  _load_with_metadata file_path w = (Ok docs, w') →
  ∃ loaded,
    load_by_extension file_path w = (Ok loaded, w')
    ∧ Forall2 (fun l d =>
         page_content d = page_content l
         ∧ metadata d !! "doc_type"
           = Some (default (if is_html_ext (lower (PyPath.suffix file_path))
                            then "html" else "support")
                     (metadata l !! "doc_type"))
         ∧ metadata d !! "source_document"
           = Some (default (PyPath.basename file_path) (metadata l !! "source_document"))
         ∧ ∀ k, k ≠ "doc_type" → k ≠ "source_document" →
                metadata d !! k = metadata l !! k)
        loaded docs
    ∧ (own_loader (lower (PyPath.suffix file_path)) = true →
       ∀ d, d ∈ docs → metadata d = base_metadata file_path)
    ∧ (lower (PyPath.suffix file_path) = ".html"
       ∨ lower (PyPath.suffix file_path) = ".htm" →
       ∀ d, d ∈ docs →
         metadata d = {[ "source_document" := PyPath.basename file_path;
                         "doc_type" := "html" ]})
    ∧ (lower (PyPath.suffix file_path) = ".json" →
       ∀ d, d ∈ docs →
         metadata d = {[ "source_document" := PyPath.basename file_path;
                         "doc_type" := "support" ]})
    ∧ (lower (PyPath.suffix file_path) ≠ ".html" →
       lower (PyPath.suffix file_path) ≠ ".htm" →
       Forall2 (fun l d =>
          metadata d !! "doc_type" = Some (default "support" (metadata l !! "doc_type")))
         loaded docs).
Proof.
  unfold _load_with_metadata. run. intros Hrun.
  destruct (load_by_extension file_path w) as [[loaded|e] w1] eqn:Hload; [|done].
  injection Hrun as <- <-. exists loaded. split; [done|].
  assert (own_loader (lower (PyPath.suffix file_path)) = true →
          ∀ d, d ∈ with_default_metadata file_path <$> loaded →
               metadata d = base_metadata file_path) as Hbase.
  { intros Hown d (l & -> & Hl)%list_elem_of_fmap.
    unfold with_default_metadata. simpl.
    rewrite (load_by_extension_own _ _ _ _ Hown Hload l Hl).
    apply setdefault_base. }
  split; [|split; [done|split; [|split]]].
  - apply Forall2_fmap_r, Forall_Forall2_diag, Forall_forall. intros l _.
    apply with_default_metadata_lookup.
  - intros Hk d Hd.
    assert (is_html_ext (lower (PyPath.suffix file_path)) = true) as Hext
      by (destruct Hk as [E|E]; by rewrite E).
    rewrite (Hbase (proj2 (orb_true_iff _ _) (or_introl Hext)) d Hd).
    unfold base_metadata, base_doc_type, base_source_document. by rewrite Hext.
  - intros Hk d Hd.
    assert (own_loader (lower (PyPath.suffix file_path)) = true) as Hown
      by by rewrite Hk.
    rewrite (Hbase Hown d Hd).
    unfold base_metadata, base_doc_type, base_source_document. by rewrite Hk.
  - intros H1 H2.
    apply Forall2_fmap_r, Forall_Forall2_diag, Forall_forall. intros l _.
    destruct (with_default_metadata_lookup file_path l) as (_ & Hdt & _).
    unfold compose. rewrite Hdt. unfold base_doc_type.
    destruct (is_html_ext _) eqn:Hext; [|done].
    by apply is_html_ext_cases in Hext as [?|?].
Qed.

End Loader.

(** ** Resolving the page markup *)

Section MarkupResolution.
Context `{P : Providers}.
Import PyStr.

Lemma scan_uploads_run (filenames : list string) (w : World) :
  scan_uploads filenames w =
    match first_markup filenames with
    | None => (Ok None, w)
    | Some path =>
        match files (fs w) !! path with
        | Some content =>
            (Ok (Some content),
             set_engine (set_latest_html_path (Some path))
               (set_engine (set_latest_html_content (Some content)) w))
        | None => (Raise (OSError path), w)
        end
    end.
Proof.
  induction filenames as [|filename rest IH]; [done|].
  cbn [scan_uploads first_markup].
  destruct (is_markup_name filename); [|exact IH].
  unfold read_file. run. by destruct (files (fs w) !! _).
Qed.

Lemma scan_upload_dir_run (w : World) :
  scan_upload_dir w =
    match first_markup_upload (fs w) with
    | None => (Ok None, w)
    | Some path =>
        match files (fs w) !! path with
        | Some content =>
            (Ok (Some content),
             set_engine (set_latest_html_path (Some path))
               (set_engine (set_latest_html_content (Some content)) w))
        | None => (Raise (OSError path), w)
        end
    end.
Proof.
  unfold scan_upload_dir, first_markup_upload, isdir, listdir. run.
  destruct (dirs (fs w) !! UPLOAD_DIR) as [filenames|] eqn:Hd.
  - rewrite bool_decide_eq_true_2 by eauto. rewrite Hd. apply scan_uploads_run.
  - rewrite bool_decide_eq_false_2; [done|]. by intros [? ?].
Qed.

Lemma get_latest_html_content_run (w : World) :
  _get_latest_html_content w =
    if truthy_opt (latest_html_content (engine w)) then
      (Ok (latest_html_content (engine w)), w)
    else if cached_path_exists w then
      match files (fs w) !! default EmptyString (latest_html_path (engine w)) with
      | Some content =>
          (Ok (Some content), set_engine (set_latest_html_content (Some content)) w)
      | None => (Raise (OSError (default EmptyString (latest_html_path (engine w)))), w)
      end
    else scan_upload_dir w.
Proof.
  unfold _get_latest_html_content, read_file.
  unfold mbind, M_bind, bind, mret, M_ret, ret, get, modify.
  destruct (truthy_opt (latest_html_content (engine w))); [done|].
  destruct (cached_path_exists w); [|done].
  by destruct (files (fs w) !! _).
Qed.

(** Resolution changes nothing but the two cached fields. *)
Lemma resolve_html_source_world (html_content : option string) (w : World) :
  ∃ path content,
    snd (resolve_html_source html_content w)
    = mkWorld (mkEngine (vector_store (engine w)) path content)
        (fs w) (environ w) (llm_calls w) (stdout w).
Proof.
  assert (∃ path content,
            w = mkWorld (mkEngine (vector_store (engine w)) path content)
                  (fs w) (environ w) (llm_calls w) (stdout w)) as Hsame.
  { destruct w as [[v p c] f env calls out]. by eexists _, _. }
  unfold resolve_html_source.
  destruct (truthy_opt html_content); [exact Hsame|].
  rewrite get_latest_html_content_run.
  destruct (truthy_opt (latest_html_content (engine w))); [exact Hsame|].
  destruct (cached_path_exists w).
  - destruct (files (fs w) !! _); [by eexists _, _ | exact Hsame].
  - rewrite scan_upload_dir_run.
    destruct (first_markup_upload (fs w)) as [path|]; [|exact Hsame].
    destruct (files (fs w) !! path); [by eexists _, _ | exact Hsame].
Qed.

Lemma get_html_documents_run (w : World) :
  _get_html_documents w = (Ok (html_context_docs w), w).
Proof.
  unfold _get_html_documents, html_context_docs, store_retrieve. run.
  by destruct (retriever_invoke _ _ _ _).
Qed.

Lemma generate_selenium_script_unfold (test_case : TestCase)
    (html_content api_key : option string) (w : World) (docs : list Document) :
  retriever_invoke (vector_store (engine w)) 3 (Some ("doc_type", "support"))
    (feature test_case) = Ok docs →
  generate_selenium_script test_case html_content api_key w =
    match resolve_html_source html_content w with
    | (Raise e, w1) => (Raise e, w1)
    | (Ok source, w1) =>
        match source with
        | Some html =>
            if truthy html then
              let call := script_call test_case api_key w docs html in
              match script_chain call with
              | Ok script =>
                  match _validate_selenium_script (clean_script script) html with
                  | Ok _ => (Ok (clean_script script), log_llm call w1)
                  | Raise e => (Raise e, log_llm call w1)
                  end
              | Raise e => (Raise e, log_llm call w1)
              end
            else (Raise (ValueError no_html_msg), w1)
        | None => (Raise (ValueError no_html_msg), w1)
        end
    end.
Proof.
  intros Hdocs. unfold generate_selenium_script, store_retrieve. run.
  rewrite Hdocs. rewrite get_html_documents_run.
  destruct (resolve_html_source_world html_content w) as (path & content & Hw).
  destruct (resolve_html_source html_content w) as [[source|e] w1]; [|done].
  simpl in Hw. subst w1.
  destruct source as [html|]; [|done].
  destruct (truthy html); [|done].
  unfold _get_llm, script_call. run.
  destruct (script_chain _) as [script|e]; [|done]. simpl.
  by destruct (_validate_selenium_script _ _).
Qed.

Lemma cached_path_unusable (w : World) :
  (∀ path, latest_html_path (engine w) = Some path → truthy path = true →
           path_exists (fs w) path = false) →
  cached_path_exists w = false.
Proof.
  intros Hp. unfold cached_path_exists.
  destruct (latest_html_path (engine w)) as [path|]; [|done].
  destruct (truthy path) eqn:Ht; [|done]. by rewrite (Hp path).
Qed.

(** With no argument, nothing cached and no usable cached path, resolution
    is the scan of the upload directory. *)
Lemma resolve_by_scan (html_content : option string) (w : World) :
  truthy_opt html_content = false →
  truthy_opt (latest_html_content (engine w)) = false →
  cached_path_exists w = false →
  fst (resolve_html_source html_content w)
  = match first_markup_upload (fs w) with
    | Some path => read_markup (fs w) path
    | None => Ok None
    end.
Proof.
  intros Ho Hc Hp.
  unfold resolve_html_source. rewrite Ho.
  rewrite get_latest_html_content_run, Hc, Hp, scan_upload_dir_run.
  destruct (first_markup_upload (fs w)) as [path|]; [|done].
  unfold read_markup. by destruct (files (fs w) !! path).
Qed.

(** When what is resolved is nothing or empty, the call raises without
    invoking a chain. *)
Lemma generate_selenium_script_no_markup (test_case : TestCase)
    (html_content api_key : option string) (w : World) (source : option string) :
  fst (resolve_html_source html_content w) = Ok source →
  truthy_opt source = false →
  llm_calls (snd (generate_selenium_script test_case html_content api_key w))
  = llm_calls w
  ∧ ∃ e, fst (generate_selenium_script test_case html_content api_key w) = Raise e
      ∧ ∀ docs,
          retriever_invoke (vector_store (engine w)) 3 (Some ("doc_type", "support"))
            (feature test_case) = Ok docs →
          e = ValueError no_html_msg.
Proof.
  intros Hsrc Hempty.
  destruct (retriever_invoke (vector_store (engine w)) 3 (Some ("doc_type", "support"))
              (feature test_case)) as [docs|e0] eqn:Hdocs.
  - rewrite (generate_selenium_script_unfold _ _ _ _ _ Hdocs).
    destruct (resolve_html_source_world html_content w) as (path & content & Hw).
    destruct (resolve_html_source html_content w) as [[source'|e] w1]; [|done].
    simpl in Hsrc, Hw. injection Hsrc as ->. subst w1.
    destruct source as [html|]; simpl in Hempty.
    + rewrite Hempty. split; [done|]. by eexists.
    + split; [done|]. by eexists.
  - unfold generate_selenium_script, store_retrieve. run. rewrite Hdocs. simpl.
    split; [done|]. exists e0. split; [done|]. intros docs [=].
Qed.

Lemma generate_selenium_script_retrieval_error (test_case : TestCase)
    (html_content api_key : option string) (w : World) (e : PyExc) :
  retriever_invoke (vector_store (engine w)) 3 (Some ("doc_type", "support"))
    (feature test_case) = Raise e →
  generate_selenium_script test_case html_content api_key w = (Raise e, w).
Proof.
  intros Hdocs. unfold generate_selenium_script, store_retrieve. run. by rewrite Hdocs.
Qed.

End MarkupResolution.

(** ** The selector pattern *)

Section PatternFacts.
Import PyStr SelectorPattern.

Lemma method_group_method (s method rest : string) :
  method_group s = Some (method, rest) →
  method = "ID" ∨ method = "NAME" ∨ method = "CSS_SELECTOR".
Proof.
  unfold method_group.
  destruct (strip_prefix "ID" s); [intros [= <- _]; auto|].
  destruct (strip_prefix "NAME" s); [intros [= <- _]; auto|].
  destruct (strip_prefix "CSS_SELECTOR" s); [intros [= <- _]; auto|done].
Qed.

Lemma match_at_groups (s method selector rest : string) :
  match_at s = Some (method, selector, rest) →
  (method = "ID" ∨ method = "NAME" ∨ method = "CSS_SELECTOR") ∧ selector ≠ EmptyString.
Proof.
  unfold match_at.
  destruct (strip_prefix "By." s) as [s1|]; cbn [mbind option_bind]; [|done].
  destruct (method_group s1) as [[m s2]|] eqn:Hm; cbn [mbind option_bind]; [|done].
  destruct (strip_prefix "," (lstrip s2)) as [s4|]; cbn [mbind option_bind]; [|done].
  destruct (lstrip s4) as [|q s6]; [done|].
  destruct (is_quote q); [|done].
  destruct (take_non_quote s6) as [[|c sel] [|q' s8]]; try done.
  intros [= <- <- _]. split; [by eapply method_group_method | done].
Qed.

(** Every match of the pattern is a lookup of one of the three kinds with a
    non-empty literal. *)
Lemma findall_groups (script method selector : string) :
  (method, selector) ∈ findall script →
  (method = "ID" ∨ method = "NAME" ∨ method = "CSS_SELECTOR") ∧ selector ≠ EmptyString.
Proof.
  unfold findall. generalize 0 as skip.
  induction script as [|c script IH]; intros skip; [by intros ?%elem_of_nil|].
  cbn [findall_from]. destruct skip as [|k]; [|apply IH].
  destruct (match_at (String c script)) as [[[m sel] rest]|] eqn:Hm; [|apply IH].
  intros [[= -> ->]|Hin]%elem_of_cons; [by eapply match_at_groups | by eapply IH].
Qed.

End PatternFacts.

(** ** Selector validation *)

Section SelectorValidation.
Context `{P : Providers}.
Import PyStr.

Lemma elif_chain {A} (b1 b2 b3 b4 b5 : bool) (x y : A) :
  (if b1 then x else if b2 then x else if b3 then (if b4 then x else if b5 then x else y) else y)
  = if b1 || b2 || b3 && (b4 || b5) then x else y.
Proof. by destruct b1, b2, b3, b4, b5. Qed.

Lemma missing_selectors_cons ids names classes method selector rest :
  missing_selectors ids names classes ((method, selector) :: rest)
  = if reported ids names classes method selector
    then (method, selector) :: missing_selectors ids names classes rest
    else missing_selectors ids names classes rest.
Proof. cbn [missing_selectors]. apply elif_chain. Qed.

Lemma reported_iff ids names classes method selector :
  reported ids names classes method selector = true
  ↔ offending ids names classes method selector.
Proof.
  unfold reported, offending.
  rewrite !orb_true_iff, !andb_true_iff, !orb_true_iff, !andb_true_iff.
  rewrite !negb_true_iff, !bool_decide_eq_true, !bool_decide_eq_false.
  tauto.
Qed.

Lemma missing_selectors_elem ids names classes matches method selector :
  (method, selector) ∈ missing_selectors ids names classes matches
  ↔ (method, selector) ∈ matches ∧ offending ids names classes method selector.
Proof.
  induction matches as [|[m s] rest IH].
  { simpl. split; [by intros ?%elem_of_nil | by intros [?%elem_of_nil _]]. }
  rewrite missing_selectors_cons.
  destruct (reported ids names classes m s) eqn:Hr.
  - apply reported_iff in Hr. rewrite !elem_of_cons, IH. split.
    + intros [[= -> ->]|[? ?]]; auto.
    + intros [[?|?] ?]; auto.
  - rewrite elem_of_cons, IH. split; [tauto|].
    intros [[[= -> ->]|?] Ho]; [|done].
    apply reported_iff in Ho. congruence.
Qed.

Lemma validate_selenium_script_raise_iff (script html_source : string) :
  (∃ e, _validate_selenium_script script html_source = Raise e)
  ↔ SelectorPattern.findall script = []
    ∨ ∃ method selector,
        (method, selector) ∈ SelectorPattern.findall script
        ∧ offending (html_ids html_source) (html_names html_source)
            (html_classes html_source) method selector.
Proof.
  unfold _validate_selenium_script.
  destruct (SelectorPattern.findall script) as [|x matches] eqn:Hm.
  - split; [by left | by eexists].
  - set (all := x :: matches) in *.
    destruct (missing_selectors _ _ _ all) as [|[m s] missing] eqn:Hmiss.
    + split; [by intros [e ?]|]. intros [?|(m & s & Hin & Ho)]; [done|].
      assert ((m, s) ∈ missing_selectors (html_ids html_source) (html_names html_source)
                (html_classes html_source) all) as Hx
        by by apply missing_selectors_elem.
      rewrite Hmiss in Hx. by apply elem_of_nil in Hx.
    + split; [|by eexists]. intros _. right. exists m, s.
      apply missing_selectors_elem. rewrite Hmiss. by apply elem_of_cons; left.
Qed.

Lemma validate_selenium_script_message (script html_source : string) (e : PyExc) :
  SelectorPattern.findall script ≠ [] →
  _validate_selenium_script script html_source = Raise e →
  e = ValueError (missing_selectors_prefix
                  +:+ selector_detail
                        (missing_selectors (html_ids html_source) (html_names html_source)
                           (html_classes html_source) (SelectorPattern.findall script))).
Proof.
  unfold _validate_selenium_script. intros Hne.
  destruct (SelectorPattern.findall script) as [|x matches]; [done|].
  destruct (missing_selectors _ _ _ _); [done|]. by intros [= <-].
Qed.

Lemma attribute_values_elem (get : Tag → option string) (tags : list Tag) (s : string) :
  s ∈ (list_to_set (omap (fun tag => match get tag with
                                     | Some v => if truthy v then Some v else None
                                     | None => None
                                     end) tags) : gset string)
  ↔ s ≠ "" ∧ ∃ tag, tag ∈ tags ∧ get tag = Some s.
Proof.
  rewrite elem_of_list_to_set, list_elem_of_omap. split.
  - intros (tag & Hin & Hget). destruct (get tag) as [v|] eqn:Hv; [|done].
    destruct v as [|c v]; [done|]. injection Hget as <-. split; [done|by exists tag].
  - intros (Hne & tag & Hin & Hv). exists tag. split; [done|]. rewrite Hv.
    by destruct s.
Qed.

(** The sets the validation reads: the non-empty id values, the non-empty
    name values and the class tokens of the tags of the page. *)
Lemma html_ids_elem (html_source s : string) :
  s ∈ html_ids html_source ↔ s ≠ "" ∧ id_values (soup_tags html_source) s.
Proof. apply attribute_values_elem. Qed.

Lemma html_names_elem (html_source s : string) :
  s ∈ html_names html_source ↔ s ≠ "" ∧ name_values (soup_tags html_source) s.
Proof. apply attribute_values_elem. Qed.

Lemma elem_of_concat {A} (x : A) (ls : list (list A)) :
  x ∈ concat ls ↔ ∃ l, l ∈ ls ∧ x ∈ l.
Proof.
  induction ls as [|l ls IH]; simpl.
  - split; [by intros ?%elem_of_nil | by intros (l & ?%elem_of_nil & _)].
  - rewrite elem_of_app, IH. split.
    + intros [Hx|(l' & Hl' & Hx)]; [exists l | exists l'];
        (split; [|done]); apply elem_of_cons; auto.
    + intros (l' & [->|Hl']%elem_of_cons & Hx); [by left | right; by exists l'].
Qed.

Lemma html_classes_elem (html_source s : string) :
  s ∈ html_classes html_source ↔ class_tokens (soup_tags html_source) s.
Proof.
  unfold html_classes, class_tokens. rewrite elem_of_list_to_set, elem_of_concat. split.
  - intros (tokens & (tag & Hin & Htag)%list_elem_of_omap & Hs). by exists tag, tokens.
  - intros (tag & tokens & Hin & Htag & Hs). exists tokens. split; [|done].
    apply list_elem_of_omap. by exists tag.
Qed.

Lemma offending_absent (html_source method selector : string) :
  selector ≠ "" →
  offending (html_ids html_source) (html_names html_source) (html_classes html_source)
    method selector
  ↔ absent_from_page (soup_tags html_source) method selector.
Proof.
  intros Hne. unfold offending, absent_from_page.
  rewrite !html_ids_elem, html_names_elem, html_classes_elem.
  destruct (decide (drop 1 selector = "")); tauto.
Qed.

(** C2 (as amended). Validation of a script against the page fails exactly
    when the pattern has no match in the script, or some [By.ID] literal is
    not an id value of the page, or some [By.NAME] literal is not a name
    value of it, or some [By.CSS_SELECTOR] literal starting with [#] has a
    suffix that is empty or not an id value, or one starting with [.] has
    a suffix that is not a class token of the page; the id values, name
    values and class tokens being those of the tags of the parsed page.  A
    CSS selector of any other form is never reported, and a script that has
    matches, all of them such selectors, passes on every page; when matches
    exist, the error text contains [method:selector] for every offending
    match; and the error is the outcome of the whole
    [generate_selenium_script] call. *)
Theorem selector_validation_fails_iff (script html_source : string) :
  let matches := SelectorPattern.findall script in
  let tags := soup_tags html_source in
  ((∃ e, _validate_selenium_script script html_source = Raise e)
   ↔ matches = []
     ∨ (∃ s, ("ID", s) ∈ matches ∧ ¬ id_values tags s)
     ∨ (∃ s, ("NAME", s) ∈ matches ∧ ¬ name_values tags s)
     ∨ (∃ s, ("CSS_SELECTOR", s) ∈ matches
             ∧ ((startswith "#" s = true
                 ∧ (drop 1 s = "" ∨ ¬ id_values tags (drop 1 s)))
                ∨ (startswith "." s = true ∧ ¬ class_tokens tags (drop 1 s)))))
  ∧ (∀ s, startswith "#" s = false → startswith "." s = false →
          ("CSS_SELECTOR", s)
          ∉ missing_selectors (html_ids html_source) (html_names html_source)
              (html_classes html_source) matches)
  ∧ (matches ≠ [] →
     (∀ method selector, (method, selector) ∈ matches →
        method = "CSS_SELECTOR"
        ∧ startswith "#" selector = false ∧ startswith "." selector = false) →
     _validate_selenium_script script html_source = Ok tt)
  ∧ (matches ≠ [] →
     ∀ e, _validate_selenium_script script html_source = Raise e →
          ∃ msg, e = ValueError msg
            ∧ ∀ method selector,
                (method, selector) ∈ matches →
                absent_from_page tags method selector →
                contains (method +:+ ":" +:+ selector) msg = true)
  ∧ (∀ test_case html_content api_key w docs raw e,
       retriever_invoke (vector_store (engine w)) 3 (Some ("doc_type", "support"))
         (feature test_case) = Ok docs →
       fst (resolve_html_source html_content w) = Ok (Some html_source) →
       truthy html_source = true →
       script_chain (script_call test_case api_key w docs html_source) = Ok raw →
       clean_script raw = script →
       _validate_selenium_script script html_source = Raise e →
       fst (generate_selenium_script test_case html_content api_key w) = Raise e).
Proof.
  intros matches tags.
  assert ((∃ e, _validate_selenium_script script html_source = Raise e)
          ↔ matches = []
            ∨ ∃ method selector, (method, selector) ∈ matches
                                 ∧ absent_from_page tags method selector) as Hiff.
  { rewrite validate_selenium_script_raise_iff. fold matches. split.
    - intros [?|(m & s & Hin & Ho)]; [by left|right]. exists m, s. split; [done|].
      apply offending_absent; [|done]. by apply (findall_groups script m s).
    - intros [?|(m & s & Hin & Ho)]; [by left|right]. exists m, s. split; [done|].
      apply offending_absent; [|done]. by apply (findall_groups script m s). }
  split; [|split; [|split; [|split]]].
  - rewrite Hiff. unfold absent_from_page. split.
    + intros [?|(m & s & Hin & [[-> ?]|[[-> ?]|[-> ?]]])]; eauto 10.
    + intros [?|[(s & ? & ?)|[(s & ? & ?)|(s & ? & ?)]]]; [by left|right..].
      * exists "ID", s. auto.
      * exists "NAME", s. auto.
      * exists "CSS_SELECTOR", s. auto.
  - intros s H1 H2 [_ Ho]%missing_selectors_elem.
    destruct Ho as [[[=] _]|[[[=] _]|[_ [[Hs _]|[Hs _]]]]]; congruence.
  - intros Hne Hall.
    destruct (_validate_selenium_script script html_source) as [[]|e] eqn:He; [done|].
    destruct (proj1 Hiff (ex_intro _ e eq_refl)) as [?|(m & s & Hin & Ho)]; [done|].
    destruct (Hall m s Hin) as (-> & H1 & H2).
    destruct Ho as [[[=] _]|[[[=] _]|[_ [[Hs _]|[Hs _]]]]]; congruence.
  - intros Hne e He.
    rewrite (validate_selenium_script_message _ _ _ Hne He).
    eexists. split; [reflexivity|]. intros m s Hin Ho.
    unfold selector_detail. apply contains_join.
    apply list_elem_of_fmap. exists (m, s). split; [done|].
    apply missing_selectors_elem. split; [done|].
    apply offending_absent; [|done]. by apply (findall_groups script m s).
  - intros test_case html_content api_key w docs raw e Hdocs Hsrc Ht Hraw Hclean He.
    rewrite (generate_selenium_script_unfold _ _ _ _ _ Hdocs).
    destruct (resolve_html_source html_content w) as [[source|e'] w1]; [|done].
    simpl in Hsrc. injection Hsrc as ->. rewrite Ht. cbv zeta.
    by rewrite Hraw, Hclean, He.
Qed.

End SelectorValidation.

(** ** Plan generation on examples *)

Section PlanExamples.
Import PyStr.

Lemma grounding_enforced_witness :
  let P := Stub.providers (Ok retrieved_spec) (Ok tt) (Ok Stub.mixed_plan) (Ok "") [] in
  let w := Stub.world [] None None (mkFS ∅ ∅) in
  (∀ plan w', generate_test_cases "discount code tests" None w = (Ok plan, w') →
     ∀ c, c ∈ test_cases plan → strip (grounded_in c) ∈ _collect_sources retrieved_spec)
  ∧ (∀ plan, plan_chain (plan_call "discount code tests" None w retrieved_spec) = Ok plan →
       (∃ c, c ∈ test_cases plan ∧ strip (grounded_in c) ∉ _collect_sources retrieved_spec) →
       ∃ msg w', generate_test_cases "discount code tests" None w = (Raise (ValueError msg), w')
         ∧ ∀ c, c ∈ test_cases plan →
                strip (grounded_in c) ∉ _collect_sources retrieved_spec →
                contains (violation_text c) msg = true).
Proof.
  intros P w.
  apply (@grounding_enforced_when_sources_retrieved P "discount code tests" None w
           retrieved_spec).
  - reflexivity.
  - vm_compute. discriminate.
Defined.

(** Both ungrounded cases of the mixed plan are named, the grounded one is not. *)
Example mixed_plan_rejected :
  let P := Stub.providers (Ok retrieved_spec) (Ok tt) (Ok Stub.mixed_plan) (Ok "") [] in
  fst (generate_test_cases "discount code tests" None (Stub.world [] None None (mkFS ∅ ∅)))
  = Raise (ValueError
      "Grounding validation failed. Unknown sources referenced: TC-1:invented.md, TC-2:missing").
Proof. vm_compute. reflexivity. Qed.

(** With nothing retrieved the Allowed-Sources Set is empty, and a plan that
    cites a file outside it is returned all the same. *)
Lemma ungrounded_plan_returned_when_nothing_retrieved :
  let P := Stub.providers (Ok []) (Ok tt) (Ok Stub.invented_plan) (Ok "") [] in
  let w := Stub.world [] None None (mkFS ∅ ∅) in
  retriever_invoke (vector_store (engine w)) 6 None "discount code tests" = Ok []
  ∧ fst (generate_test_cases "discount code tests" None w) = Ok Stub.invented_plan
  ∧ Stub.case1 "invented.md" ∈ test_cases Stub.invented_plan
  ∧ strip (grounded_in (Stub.case1 "invented.md")) ∉ _collect_sources [].
Proof.
  intros P w. split; [reflexivity|]. split; [vm_compute; reflexivity|].
  split; [by apply list_elem_of_singleton|].
  apply not_elem_of_empty.
Qed.

Lemma grounding_skipped_witness :
  let P := Stub.providers (Ok []) (Ok tt) (Ok Stub.invented_plan) (Ok "") [] in
  let w := Stub.world [] None None (mkFS ∅ ∅) in
  generate_test_cases "discount code tests" None w
  = (Ok Stub.invented_plan, log_llm (plan_call "discount code tests" None w []) w).
Proof.
  intros P w.
  apply (@grounding_skipped_when_no_sources P "discount code tests" None w []
           Stub.invented_plan); reflexivity.
Defined.

End PlanExamples.

(** ** The cached page on examples *)

Section CachedPageExamples.
Import PyStr.

(** Nothing was loaded since the clear, yet script generation leaves the
    first page-markup file of the upload directory in the cache (here the
    model call fails afterwards, which does not undo it). *)
Lemma cache_filled_by_script_generation :
  let P := Stub.providers (Ok []) (Ok tt) (Ok Stub.invented_plan)
             (Raise (ProviderError "model unavailable")) Stub.page_tags in
  let w := Stub.world [] None None checkout_uploads in
  let ops := [OpClear; OpScript (Stub.case1 "spec.md") None None] in
  cached_page (run_ops ops w) = (Some checkout_path, Some Stub.page)
  ∧ most_recent_markup (fs w) (cached_page w) ops = (None, None).
Proof. intros P w ops. split; vm_compute; reflexivity. Qed.

(** A deletion that raises is reported on the output and nothing more. *)
Example clear_after_failed_delete :
  let P := Stub.providers (Ok []) (Raise (ProviderError "collection does not exist"))
             (Ok Stub.invented_plan) (Ok "") [] in
  let w := Stub.world [] (Some checkout_path) (Some Stub.page) checkout_uploads in
  fst (clear_database w) = Ok tt
  ∧ cached_page (snd (clear_database w)) = (None, None)
  ∧ stdout (snd (clear_database w))
    = ["Warning: Could not delete collection: collection does not exist"].
Proof. repeat split; vm_compute; reflexivity. Qed.


Lemma cached_page_witness :
  let P := Stub.providers (Ok []) (Ok tt) (Ok Stub.invented_plan) (Ok "") Stub.page_tags in
  let w := Stub.world [] None None checkout_uploads in
  let ops := [OpLoad "data/uploads/old.html"; OpClear; OpLoad checkout_path;
              OpPlan "discount code tests" None; OpLoad "data/uploads/spec.md"] in
  cached_page (run_ops ops w) = (Some checkout_path, Some Stub.page).
Proof.
  intros P w ops.
  rewrite (proj2 (proj2 (@cached_page_follows_loads_and_clears P)) ops w).
  - vm_compute. reflexivity.
  - repeat constructor.
Defined.

End CachedPageExamples.

(** ** The build handler and the loader on examples *)

Section BuildExamples.
Import PyStr.

Lemma build_rejected_witness :
  let P := Stub.providers (Ok []) (Ok tt) (Ok Stub.invented_plan) (Ok "") [] in
  let w := Stub.world [Stub.chunk "old text" "old.md"] (Some "data/uploads/old.html")
             (Some Stub.page) support_only in
  ∃ detail, build_knowledge_base w = (Raise (HTTPException 400 detail), w).
Proof.
  intros P w.
  apply (@build_rejected_before_store_mutation P w ["spec.md"; "rules.JSON"]).
  - vm_compute. reflexivity.
  - right. left. repeat constructor.
Defined.

Lemma loader_metadata_witness :
  let P := Stub.providers (Ok []) (Ok tt) (Ok Stub.invented_plan) (Ok "") [] in
  let w := Stub.world [] None None two_pages in
  let wg := Stub.world [] None None guide_fs in
  (fst (_load_with_metadata "data/uploads/b.HTM" w)
   = Ok [mkDocument "<b>" {[ "source_document" := "b.HTM"; "doc_type" := "html" ]}]
   ∧ ∀ d, d ∈ [mkDocument "<b>" {[ "source_document" := "b.HTM"; "doc_type" := "html" ]}] →
          metadata d = {[ "source_document" := "b.HTM"; "doc_type" := "html" ]})
  ∧ (∃ loaded,
       load_by_extension "data/uploads/spec.md" w = (Ok loaded, w)
       ∧ Forall2 (fun l d =>
            metadata d !! "doc_type" = Some (default "support" (metadata l !! "doc_type")))
           loaded
           [mkDocument "The checkout page has a field named promo."
              {[ "source" := "data/uploads/spec.md"; "source_document" := "spec.md";
                 "doc_type" := "support" ]}])
  ∧ (∃ loaded,
       load_by_extension guide_path wg = (Ok loaded, wg)
       ∧ Forall2 (fun l d =>
            metadata d !! "source_document"
            = Some (default (PyPath.basename guide_path) (metadata l !! "source_document")))
           loaded guide_docs).
Proof.
  intros P w wg. split; [|split].
  - split; [vm_compute; reflexivity|].
    destruct (@loader_metadata_defaults P "data/uploads/b.HTM" w
                (snd (_load_with_metadata "data/uploads/b.HTM" w))
                [mkDocument "<b>" {[ "source_document" := "b.HTM"; "doc_type" := "html" ]}])
      as (loaded & _ & _ & _ & Hhtml & _); [vm_compute; reflexivity|].
    exact (Hhtml (or_intror eq_refl)).
  - destruct (@loader_metadata_defaults P "data/uploads/spec.md" w w
                [mkDocument "The checkout page has a field named promo."
                   {[ "source" := "data/uploads/spec.md"; "source_document" := "spec.md";
                      "doc_type" := "support" ]}])
      as (loaded & Hload & _ & _ & _ & _ & Hother); [vm_compute; reflexivity|].
    exists loaded. split; [done|]. apply Hother; vm_compute; discriminate.
  - destruct (@loader_metadata_defaults P guide_path wg wg guide_docs)
      as (loaded & Hload & Hall & _); [vm_compute; reflexivity|].
    exists loaded. split; [done|].
    eapply Forall2_impl; [exact Hall|]. by intros l d (_ & _ & Hsd & _).
Defined.

(** A page-markup file, whatever the case of its extension, is tagged "html";
    the file next to it is tagged "support". *)
Example page_markup_tagged_html :
  let P := Stub.providers (Ok []) (Ok tt) (Ok Stub.invented_plan) (Ok "") [] in
  let w := Stub.world [] None None
             (Stub.uploads ["Checkout.HTM"; "notes"]
                [("data/uploads/Checkout.HTM", Stub.page); ("data/uploads/notes", "n")]) in
  (metadata <$> default [] (match fst (_load_with_metadata "data/uploads/Checkout.HTM" w) with
                            | Ok docs => Some docs | Raise _ => None end))
  = [ {[ "source_document" := "Checkout.HTM"; "doc_type" := "html" ]} ]
  ∧ (metadata <$> default [] (match fst (_load_with_metadata "data/uploads/notes" w) with
                              | Ok docs => Some docs | Raise _ => None end))
  = [ {[ "source" := "data/uploads/notes"; "source_document" := "notes";
         "doc_type" := "support" ]} ].
Proof. split; vm_compute; reflexivity. Qed.

End BuildExamples.

(** ** Script generation on examples *)

Section ScriptExamples.
Import PyStr.

Example findall_good_script :
  SelectorPattern.findall good_script
  = [("ID", "promo-code"); ("NAME", "promo"); ("CSS_SELECTOR", "#apply-btn");
     ("CSS_SELECTOR", "button.btn > span")].
Proof. vm_compute. reflexivity. Qed.

Example good_script_accepted :
  let P := Stub.providers (Ok []) (Ok tt) (Ok Stub.invented_plan) (Ok good_script)
             Stub.page_tags in
  fst (generate_selenium_script (Stub.case1 "spec.md") (Some Stub.page) None
         (Stub.world [] None None (mkFS ∅ ∅)))
  = Ok good_script.
Proof. vm_compute. reflexivity. Qed.

(** Both absent selectors are reported; the XPath lookup and the CSS selector
    that starts with neither [#] nor [.] are not looked at. *)
Example bad_script_rejected :
  let P := Stub.providers (Ok []) (Ok tt) (Ok Stub.invented_plan) (Ok bad_script)
             Stub.page_tags in
  fst (generate_selenium_script (Stub.case1 "spec.md") (Some Stub.page) None
         (Stub.world [] None None (mkFS ∅ ∅)))
  = Raise (ValueError
      "Generated script references selectors not present in checkout.html: ID:ghost, CSS_SELECTOR:.nope").
Proof. vm_compute. reflexivity. Qed.

(** On the example page: the rejected script fails, the literal [ghost]
    being no id value of the page, and so does the whole call; a script
    that looks up the name [promo] and the class [btn], both on the page,
    passes; so does one whose only lookup is a CSS selector starting with
    neither [#] nor [.]. *)
Lemma selector_validation_witness :
  let P := Stub.providers (Ok []) (Ok tt) (Ok Stub.invented_plan) (Ok bad_script)
             Stub.page_tags in
  let w := Stub.world [] None None (mkFS ∅ ∅) in
  (∃ e, _validate_selenium_script (clean_script bad_script) Stub.page = Raise e)
  ∧ fst (generate_selenium_script (Stub.case1 "spec.md") (Some Stub.page) None w)
    = Raise (ValueError
        "Generated script references selectors not present in checkout.html: ID:ghost, CSS_SELECTOR:.nope")
  ∧ _validate_selenium_script present_script Stub.page = Ok tt
  ∧ _validate_selenium_script "driver.find_element(By.CSS_SELECTOR, 'div.nope')" Stub.page
    = Ok tt.
Proof.
  intros P w. split; [|split; [|split]].
  - apply (proj1 (@selector_validation_fails_iff P (clean_script bad_script) Stub.page)).
    right. left. exists "ghost". split; [decide_by_compute|].
    intros (tag & Hin & Hid). revert Hid.
    apply elem_of_cons in Hin as [->|Hin]; [done|].
    apply elem_of_cons in Hin as [->|Hin]; [done|].
    by apply elem_of_nil in Hin.
  - apply (proj2 (proj2 (proj2 (proj2 (@selector_validation_fails_iff P
                                          (clean_script bad_script) Stub.page))))
             (Stub.case1 "spec.md") (Some Stub.page) None w [] bad_script);
      vm_compute; reflexivity.
  - destruct (_validate_selenium_script present_script Stub.page) as [[]|e] eqn:He;
      [reflexivity|exfalso].
    assert (SelectorPattern.findall present_script
            = [("NAME", "promo"); ("CSS_SELECTOR", ".btn")]) as Hfind
      by (vm_compute; reflexivity).
    destruct (proj1 (proj1 (@selector_validation_fails_iff P present_script Stub.page))
                (ex_intro _ e He))
      as [Hm|[(s & Hin & Hn)|[(s & Hin & Hn)|(s & Hin & Hn)]]].
    + by rewrite Hfind in Hm.
    + rewrite Hfind in Hin.
      apply elem_of_cons in Hin as [[=]|Hin].
      apply elem_of_cons in Hin as [[=]|Hin].
      by apply elem_of_nil in Hin.
    + rewrite Hfind in Hin.
      apply elem_of_cons in Hin as [[= ->]|Hin].
      { apply Hn. exists (mkTag (Some "promo-code") (Some "promo") None).
        split; [apply elem_of_cons; by left | reflexivity]. }
      apply elem_of_cons in Hin as [[=]|Hin].
      by apply elem_of_nil in Hin.
    + rewrite Hfind in Hin.
      apply elem_of_cons in Hin as [[=]|Hin].
      apply elem_of_cons in Hin as [[= ->]|Hin]; [|by apply elem_of_nil in Hin].
      destruct Hn as [[Hs _]|[_ Hn]]; [discriminate Hs|]. apply Hn.
      exists (mkTag (Some "apply-btn") None (Some ["btn"])), ["btn"].
      split; [apply elem_of_cons; right; apply elem_of_cons; by left|].
      split; [reflexivity | by apply list_elem_of_singleton].
  - apply (proj1 (proj2 (proj2 (@selector_validation_fails_iff P
                                   "driver.find_element(By.CSS_SELECTOR, 'div.nope')"
                                   Stub.page)))).
    + vm_compute. discriminate.
    + intros m s Hin.
      assert (SelectorPattern.findall "driver.find_element(By.CSS_SELECTOR, 'div.nope')"
              = [("CSS_SELECTOR", "div.nope")]) as Hfind by (vm_compute; reflexivity).
      rewrite Hfind in Hin.
      apply elem_of_cons in Hin as [[= -> ->]|Hin]; [|by apply elem_of_nil in Hin].
      repeat split.
Defined.

(** A page with an empty [id] attribute and a script that looks up the
    selector [#]: the suffix of the selector, the empty string, is an id
    value of the page, yet validation fails and reports the selector. *)
Lemma empty_id_selector_rejected :
  let P := Stub.providers (Ok []) (Ok tt) (Ok Stub.invented_plan) (Ok "")
             [mkTag (Some "") None None] in
  let script := "driver.find_element(By.CSS_SELECTOR, '#')" in
  SelectorPattern.findall script = [("CSS_SELECTOR", "#")]
  ∧ startswith "#" "#" = true
  ∧ startswith "." "#" = false
  ∧ id_values (soup_tags "<div id=''>") (drop 1 "#")
  ∧ _validate_selenium_script script "<div id=''>"
    = Raise (ValueError
        "Generated script references selectors not present in checkout.html: CSS_SELECTOR:#").
Proof.
  intros P script. split; [vm_compute; reflexivity|].
  split; [reflexivity|]. split; [reflexivity|]. split.
  - exists (mkTag (Some "") None None). split; [apply list_elem_of_singleton|]; reflexivity.
  - vm_compute. reflexivity.
Qed.

(** The argument wins over the cache, the cache over the disk. *)
Example markup_priority :
  let P := Stub.providers (Ok []) (Ok tt) (Ok Stub.invented_plan) (Ok good_script)
             Stub.page_tags in
  let f := Stub.uploads ["notes.txt"; "B.HTML"; "a.html"]
             [("data/uploads/B.HTML", "<b>"); ("data/uploads/a.html", "<a>");
              ("data/old.html", "<old>")] in
  fst (resolve_html_source (Some "<arg>") (Stub.world [] (Some "data/old.html") (Some "<mem>") f))
  = Ok (Some "<arg>")
  ∧ fst (resolve_html_source (Some "") (Stub.world [] (Some "data/old.html") (Some "<mem>") f))
    = Ok (Some "<mem>")
  ∧ fst (resolve_html_source None (Stub.world [] (Some "data/old.html") (Some "") f))
    = Ok (Some "<old>")
  ∧ fst (resolve_html_source None (Stub.world [] (Some "data/gone.html") None f))
    = Ok (Some "<b>")
  ∧ cached_page (snd (resolve_html_source None (Stub.world [] None None f)))
    = (Some "data/uploads/B.HTML", Some "<b>").
Proof. repeat split; vm_compute; reflexivity. Qed.

End ScriptExamples.

(** * Further properties of the engine *)

(** ** Grounding: what is accepted and what the model is shown *)

Section GroundingMore.
Context `{P : Providers}.
Import PyStr.

Lemma collect_sources_elem (docs : list Document) (s : string) :
  s ∈ _collect_sources docs
  ↔ s ≠ EmptyString ∧ ∃ d, d ∈ docs ∧ metadata d !! "source_document" = Some s.
Proof.
  unfold _collect_sources. rewrite elem_of_list_to_set, list_elem_of_omap.
  unfold source_of. split.
  - intros (d & Hd & Hs).
    destruct (metadata d !! "source_document") as [v|] eqn:Ev; [|done].
    destruct v as [|c v]; [done|]. injection Hs as <-. split; [done|]. eauto.
  - intros (Hne & d & Hd & Ev). exists d. split; [done|]. rewrite Ev.
    by destruct s.
Qed.

(** A plan all of whose cases cite a retrieved source is never rejected: the
    call returns it as the model produced it, after exactly one chain
    invocation, and changes nothing else. *)
Theorem grounded_plan_returned
    (query : string) (api_key : option string) (w : World) (docs : list Document)
    (plan : TestPlan) :
  retriever_invoke (vector_store (engine w)) 6 None query = Ok docs →
  plan_chain (plan_call query api_key w docs) = Ok plan →
  (∀ c, c ∈ test_cases plan → strip (grounded_in c) ∈ _collect_sources docs) →
  generate_test_cases query api_key w
  = (Ok plan,
     mkWorld (engine w) (fs w) (environ w)
       (llm_calls w ++ [plan_call query api_key w docs])%list (stdout w)).
Proof.
  intros Hdocs Hplan Hall.
  rewrite (generate_test_cases_unfold _ _ _ _ Hdocs), Hplan.
  assert (_validate_grounding plan (_collect_sources docs) = Ok tt) as ->; [|done].
  apply validate_grounding_ok. by right.
Qed.

Lemma format_docs_contains (docs : list Document) (d : Document) :
  d ∈ docs → contains (format_doc d) (_format_docs docs) = true.
Proof.
  intros Hd. unfold _format_docs.
  destruct docs as [|d0 docs]; [by apply elem_of_nil in Hd|].
  rewrite <- (append_nil (join _ _)). apply contains_join.
  apply list_elem_of_fmap. eauto.
Qed.

Lemma contains_prefix_of (x y s : string) :
  contains (x +:+ y) s = true → contains x s = true.
Proof.
  induction s as [|c s IH]; simpl.
  - rewrite !orb_false_r. destruct x; [done|]. by rewrite append_cons.
  - intros [H|H]%orb_true_iff; apply orb_true_iff; [left|right; by apply IH].
    revert H. generalize (String c s). clear. intros s.
    revert s. induction x as [|a x IH]; intros s; [done|].
    rewrite append_cons. simpl. destruct s as [|b s]; [done|].
    destruct (decide (a = b)); [apply IH|done].
Qed.

(** Every source the grounding check accepts is shown to the model: its tag
    [[Source:name]] occurs in the context text of the prompt. *)
Theorem allowed_sources_shown_in_context (docs : list Document) (s : string) :
  s ∈ _collect_sources docs →
  contains ("[Source:" +:+ s +:+ "]") (_format_docs docs) = true.
Proof.
  intros (Hne & d & Hd & Ev)%collect_sources_elem.
  pose proof (format_docs_contains docs d Hd) as Hc.
  unfold format_doc in Hc. rewrite Ev in Hc. simpl in Hc.
  apply (contains_prefix_of _ (nl +:+ strip (page_content d))).
  by rewrite !app_assoc_str.
Qed.

(** A test case whose [grounded_in] is empty or only white space is always a
    violation once something was retrieved: the call raises, and the error
    text names the case with the source written [missing]. *)
Theorem blank_grounding_rejected
    (query : string) (api_key : option string) (w : World) (docs : list Document)
    (plan : TestPlan) (c : TestCase) :
  retriever_invoke (vector_store (engine w)) 6 None query = Ok docs →
  _collect_sources docs ≠ ∅ →
  plan_chain (plan_call query api_key w docs) = Ok plan →
  c ∈ test_cases plan →
  strip (grounded_in c) = EmptyString →
  ∃ msg, fst (generate_test_cases query api_key w) = Raise (ValueError msg)
    ∧ contains (test_id c +:+ ":missing") msg = true.
Proof.
  intros Hdocs Hne Hplan Hc Hblank.
  assert (strip (grounded_in c) ∉ _collect_sources docs) as Hno.
  { rewrite Hblank. by intros [? _]%collect_sources_elem. }
  rewrite (generate_test_cases_unfold _ _ _ _ Hdocs), Hplan.
  destruct (validate_grounding_raise plan _ Hne (ex_intro _ c (conj Hc Hno)))
    as (msg & -> & Hmsg).
  exists msg. split; [done|].
  specialize (Hmsg c Hc Hno). unfold violation_text in Hmsg.
  by rewrite Hblank in Hmsg.
Qed.

End GroundingMore.

(** ** Ingestion and the build, end to end *)

Section IngestionMore.
Context `{P : Providers}.
Import PyStr.

(** Loading a file changes nothing but the two cached fields. *)
Lemma load_with_metadata_world (file_path : string) (w : World) :
  ∃ path content,
    snd (_load_with_metadata file_path w)
    = mkWorld (mkEngine (vector_store (engine w)) path content)
        (fs w) (environ w) (llm_calls w) (stdout w).
Proof.
  destruct (is_html_ext (lower (PyPath.suffix file_path))) eqn:Hext.
  - rewrite (load_html_run _ _ Hext).
    destruct w as [[v p c] f env calls out]. simpl.
    destruct (files f !! file_path); by eexists _, _.
  - rewrite (load_other_world _ _ Hext).
    destruct w as [[v p c] f env calls out]. by eexists _, _.
Qed.

(** Whether a file loads, and to what, depends on the file system only. *)
Lemma load_with_metadata_result (file_path : string) (w1 w2 : World) :
  fs w1 = fs w2 →
  fst (_load_with_metadata file_path w1) = fst (_load_with_metadata file_path w2).
Proof.
  intros Hfs.
  destruct (is_html_ext (lower (PyPath.suffix file_path))) eqn:Hext.
  - rewrite !(load_html_run _ _ Hext), Hfs.
    by destruct (files (fs w2) !! file_path).
  - unfold _load_with_metadata, load_by_extension, _load_json, read_file.
    rewrite Hext.
    repeat case_bool_decide; run; rewrite Hfs;
      try (by destruct (UnstructuredMarkdownLoader_load _ _));
      try (by destruct (TextLoader_load _ _));
      try (by destruct (UnstructuredFileLoader_load _ _)).
    destruct (files (fs w2) !! file_path) as [data|]; simpl; [|done].
    by destruct (json_load_dumps data).
Qed.

Lemma load_all_cons (file_path : string) (rest : list string) (acc : list Document)
    (w : World) :
  load_all (file_path :: rest) acc w =
    match _load_with_metadata file_path w with
    | (Ok docs, w0) => load_all rest (acc ++ docs) w0
    | (Raise e, w0) => (Raise e, w0)
    end.
Proof. done. Qed.

Lemma load_all_world (file_paths : list string) (acc : list Document) (w : World) :
  ∃ path content,
    snd (load_all file_paths acc w)
    = mkWorld (mkEngine (vector_store (engine w)) path content)
        (fs w) (environ w) (llm_calls w) (stdout w).
Proof.
  revert acc w. induction file_paths as [|p rest IH]; intros acc w.
  - destruct w as [[v pa c] f env calls out]. by eexists _, _.
  - rewrite load_all_cons.
    destruct (load_with_metadata_world p w) as (pa & c & Hw).
    destruct (_load_with_metadata p w) as [[docs|e] w0]; simpl in Hw; subst w0.
    + destruct (IH (acc ++ docs)%list
                  (mkWorld (mkEngine (vector_store (engine w)) pa c)
                     (fs w) (environ w) (llm_calls w) (stdout w))) as (pa' & c' & ->).
      by eexists _, _.
    + by eexists _, _.
Qed.

Lemma load_all_fails (file_paths : list string) (acc : list Document) (w : World)
    (file_path : string) (e0 : PyExc) :
  file_path ∈ file_paths →
  fst (_load_with_metadata file_path w) = Raise e0 →
  ∃ e, fst (load_all file_paths acc w) = Raise e.
Proof.
  revert acc w. induction file_paths as [|p rest IH]; intros acc w Hin Hbad.
  { by apply elem_of_nil in Hin. }
  rewrite load_all_cons.
  destruct (load_with_metadata_world p w) as (pa & c & Hw).
  destruct (_load_with_metadata p w) as [[docs|e] w0] eqn:Hp; [|by eexists].
  simpl in Hw. apply elem_of_cons in Hin as [->|Hin].
  - rewrite Hp in Hbad. done.
  - apply (IH _ _ Hin). rewrite <- Hbad.
    apply load_with_metadata_result. by subst w0.
Qed.

Lemma ingest_documents_run (file_paths : list string) (w : World) :
  ingest_documents file_paths w =
    match load_all file_paths [] w with
    | (Ok documents, w1) =>
        (match fst (add_documents (split_documents 1200 150 documents)
                      (vector_store (engine w1))) with
         | Ok _ => Ok (length (split_documents 1200 150 documents))
         | Raise e => Raise e
         end,
         set_engine (set_vector_store
                       (snd (add_documents (split_documents 1200 150 documents)
                               (vector_store (engine w1))))) w1)
    | (Raise e, w1) => (Raise e, w1)
    end.
Proof.
  unfold ingest_documents, store_add. run.
  destruct (load_all file_paths [] w) as [[documents|e] w1]; [|done].
  by destruct (add_documents _ _) as [[[]|e] v].
Qed.

(** No partial commit: when some file of the batch cannot be loaded, the
    ingestion raises and the vector store and the file system are left as
    they were (only the cached page may have been replaced by a page-markup
    file loaded before the failure). *)
Theorem ingest_failure_keeps_store (file_paths : list string) (w : World)
    (file_path : string) (e0 : PyExc) :
  file_path ∈ file_paths →
  fst (_load_with_metadata file_path w) = Raise e0 →
  (∃ e, fst (ingest_documents file_paths w) = Raise e)
  ∧ vector_store (engine (snd (ingest_documents file_paths w))) = vector_store (engine w)
  ∧ fs (snd (ingest_documents file_paths w)) = fs w.
Proof.
  intros Hin Hbad. rewrite ingest_documents_run.
  destruct (load_all_fails file_paths [] w file_path e0 Hin Hbad) as [e He].
  destruct (load_all_world file_paths [] w) as (pa & c & Hw).
  destruct (load_all file_paths [] w) as [[documents|e'] w1]; [done|].
  simpl in Hw. subst w1. split; [by eexists|done].
Qed.

Lemma load_all_cached (file_paths : list string) (acc : list Document) (w w1 : World)
    (docs : list Document) :
  load_all file_paths acc w = (Ok docs, w1) →
  cached_page w1 = most_recent_markup (fs w) (cached_page w) (OpLoad <$> file_paths)
  ∧ ∀ p, p ∈ file_paths → is_html_ext (lower (PyPath.suffix p)) = true →
         is_Some (files (fs w) !! p).
Proof.
  revert acc w. induction file_paths as [|p rest IH]; intros acc w.
  - intros [= _ <-]. split; [done|]. by intros p ?%elem_of_nil.
  - rewrite load_all_cons.
    pose proof (run_op_cached_page (OpLoad p) w eq_refl) as [Hc Hf]. simpl in Hc, Hf.
    destruct (_load_with_metadata p w) as [[d|e] w0] eqn:Hp; [|done].
    simpl in Hc, Hf. intros Hrest.
    destruct (IH _ _ Hrest) as [Hcache Hfiles]. rewrite Hf in Hcache, Hfiles.
    split.
    + rewrite Hcache, Hc. done.
    + intros q [->|Hq]%elem_of_cons Hext; [|by apply Hfiles].
      rewrite (load_html_run _ _ Hext) in Hp.
      destruct (files (fs w) !! p); [by eexists|done].
Qed.

Lemma most_recent_markup_other (f : FileSystem) (cur : option string * option string)
    (file_paths : list string) :
  Forall (fun p => is_html_ext (lower (PyPath.suffix p)) = false) file_paths →
  most_recent_markup f cur (OpLoad <$> file_paths) = cur.
Proof.
  induction 1 as [|p rest Hp _ IH]; [done|].
  unfold most_recent_markup in *. simpl. by rewrite Hp.
Qed.

Lemma most_recent_markup_last (f : FileSystem) (cur : option string * option string)
    (before after : list string) (file_path raw : string) :
  is_html_ext (lower (PyPath.suffix file_path)) = true →
  files f !! file_path = Some raw →
  Forall (fun p => is_html_ext (lower (PyPath.suffix p)) = false) after →
  most_recent_markup f cur (OpLoad <$> (before ++ file_path :: after)%list)
  = (Some file_path, Some raw).
Proof.
  intros Hext Hraw Hafter. unfold most_recent_markup.
  rewrite fmap_app, fold_left_app. simpl. rewrite Hext, Hraw.
  by apply most_recent_markup_other.
Qed.

(** The last page wins: when a batch with several page-markup files is
    ingested, the cached page afterwards is the last of them in batch order,
    with the text read from it. *)
Theorem ingest_last_markup_wins (before after : list string) (file_path : string)
    (w w' : World) (n : nat) :
  ingest_documents (before ++ file_path :: after)%list w = (Ok n, w') →
  is_html_ext (lower (PyPath.suffix file_path)) = true →
  Forall (fun p => is_html_ext (lower (PyPath.suffix p)) = false) after →
  ∃ raw, files (fs w) !! file_path = Some raw
    ∧ cached_page w' = (Some file_path, Some raw).
Proof.
  rewrite ingest_documents_run. intros Hrun Hext Hafter.
  destruct (load_all _ [] w) as [[documents|e] w1] eqn:Hload; [|done].
  destruct (load_all_cached _ _ _ _ _ Hload) as [Hcache Hfiles].
  destruct (Hfiles file_path) as [raw Hraw]; [set_solver|done|].
  exists raw. split; [done|].
  injection Hrun as _ <-.
  rewrite (most_recent_markup_last _ _ _ _ _ _ Hext Hraw Hafter) in Hcache.
  by rewrite <- Hcache.
Qed.

Lemma filter_Exists {A} (f : A → bool) (b : bool) (l : list A) :
  filter (fun x => f x = b) l ≠ [] → Exists (fun x => f x = b) l.
Proof.
  induction l as [|x l IH]; [done|].
  rewrite filter_cons. destruct (decide (f x = b)) as [E|_].
  - intros _. by apply Exists_cons_hd.
  - intros H. apply Exists_cons_tl, IH, H.
Qed.

(** A build that returns has found both kinds of file, has ingested the whole
    listing into a store re-opened after the deletion (never on top of the
    old handle), reports the number of chunks added, and leaves as cached
    page the most recent page-markup file of the listing. *)
Theorem build_replaces_store_and_page (w w' : World) (resp : BuildResponse) :
  build_knowledge_base w = (Ok resp, w') →
  ∃ names docs,
    dirs (fs w) !! UPLOAD_DIR = Some names
    ∧ Exists (fun n => has_html_extension (PyPath.join UPLOAD_DIR n) = true) names
    ∧ Exists (fun n => has_html_extension (PyPath.join UPLOAD_DIR n) = false) names
    ∧ fst (load_all (PyPath.join UPLOAD_DIR <$> names) [] (snd (clear_database w)))
      = Ok docs
    ∧ chunks_processed resp = length (split_documents 1200 150 docs)
    ∧ vector_store (engine w')
      = snd (add_documents (split_documents 1200 150 docs)
               (Chroma CHROMA_PATH (snd (delete_collection (vector_store (engine w))))))
    ∧ cached_page w'
      = most_recent_markup (fs w) (None, None)
          (OpLoad <$> (PyPath.join UPLOAD_DIR <$> names)).
Proof.
  unfold build_knowledge_base, listdir. run.
  destruct (dirs (fs w) !! UPLOAD_DIR) as [names|] eqn:Hdir; [|done].
  set (paths := PyPath.join UPLOAD_DIR <$> names).
  destruct paths as [|p0 paths0] eqn:Hpaths; [done|]. rewrite <- Hpaths.
  destruct (filter (fun f => has_html_extension f = true) paths) eqn:Hhtml;
    [done|].
  destruct (filter (fun f => has_html_extension f = false) paths) eqn:Hsup;
    [done|].
  rewrite clear_database_run, ingest_documents_run.
  set (w0 := mkWorld _ _ _ _ _).
  destruct (load_all paths [] w0) as [[docs|e] w1] eqn:Hload; [|done].
  destruct (load_all_world paths [] w0) as (pa & c & Hw1).
  rewrite Hload in Hw1. simpl in Hw1.
  destruct (load_all_cached _ _ _ _ _ Hload) as [Hcache _].
  destruct (add_documents (split_documents 1200 150 docs) (vector_store (engine w1)))
    as [[[]|e] v] eqn:Hadd; simpl; [|done].
  intros [= <- <-]. exists names, docs.
  split; [done|]. split.
  { apply (Exists_fmap (PyPath.join UPLOAD_DIR)
             (fun f => has_html_extension f = true)).
    apply (filter_Exists has_html_extension true). fold paths. by rewrite Hhtml. }
  split.
  { apply (Exists_fmap (PyPath.join UPLOAD_DIR)
             (fun f => has_html_extension f = false)).
    apply (filter_Exists has_html_extension false). fold paths. by rewrite Hsup. }
  fold paths. rewrite Hload.
  split; [done|]. split; [done|]. split.
  - subst w1. simpl in Hadd. simpl. by rewrite Hadd.
  - change (cached_page (set_engine (set_vector_store v) w1)) with (cached_page w1).
    by rewrite Hcache.
Qed.

End IngestionMore.

(** ** The clean-up of a generated script *)

Section CleanScript.
Import PyStr.

Lemma startswith_cons (a b : ascii) (p s : string) :
  startswith (String a p) (String b s) = if decide (a = b) then startswith p s else false.
Proof. done. Qed.

Lemma startswith_prefix_of (x y s : string) :
  startswith (x +:+ y) s = true → startswith x s = true.
Proof.
  revert s. induction x as [|a x IH]; intros s; [done|].
  rewrite append_cons. destruct s as [|b s]; [done|].
  rewrite !startswith_cons. destruct (decide (a = b)); [apply IH|done].
Qed.

Lemma startswith_app_r (x a t : string) :
  startswith x a = true → startswith x (a +:+ t) = true.
Proof.
  revert a. induction x as [|c x IH]; intros a; [done|].
  destruct a as [|b a]; [done|].
  rewrite append_cons, !startswith_cons. destruct (decide (c = b)); [apply IH|done].
Qed.

Lemma contains_cons (x : string) (c : ascii) (s : string) :
  contains x (String c s) = startswith x (String c s) || contains x s.
Proof. done. Qed.

Lemma contains_nil (x : string) : contains x EmptyString = startswith x EmptyString.
Proof. simpl. apply orb_false_r. Qed.

Lemma contains_app_r (x a t : string) :
  contains x a = true → contains x (a +:+ t) = true.
Proof.
  induction a as [|c a IH].
  - rewrite contains_nil, append_nil. intros H. destruct x; [|done].
    by apply contains_startswith.
  - rewrite append_cons, !contains_cons.
    intros [H|H]%orb_true_iff; apply orb_true_iff.
    + left. by apply (startswith_app_r x (String c a) t).
    + right. by apply IH.
Qed.

Lemma contains_lstrip (x s : string) :
  contains x (lstrip s) = true → contains x s = true.
Proof.
  induction s as [|c s IH]; [done|].
  cbn [lstrip]. destruct (isspace c); [|done].
  intros H. rewrite contains_cons. apply orb_true_iff. right. by apply IH.
Qed.

Lemma rstrip_cons (c : ascii) (s : string) :
  rstrip (String c s) =
    match rstrip s with
    | EmptyString => if isspace c then EmptyString else String c EmptyString
    | r => String c r
    end.
Proof. done. Qed.

Lemma rstrip_prefix (s : string) : ∃ t, s = rstrip s +:+ t.
Proof.
  induction s as [|c s [t Ht]]; [by exists EmptyString|].
  rewrite rstrip_cons. destruct (rstrip s) as [|a r].
  - destruct (isspace c).
    + by exists (String c s).
    + exists s. by rewrite append_cons, append_nil.
  - exists t. rewrite append_cons. by rewrite <- Ht.
Qed.

Lemma contains_rstrip (x s : string) :
  contains x (rstrip s) = true → contains x s = true.
Proof.
  intros H. destruct (rstrip_prefix s) as [t Ht]. rewrite Ht.
  by apply contains_app_r.
Qed.

Lemma contains_strip (x s : string) :
  contains x (strip s) = true → contains x s = true.
Proof. intros H. by apply contains_lstrip, contains_rstrip. Qed.

Lemma rstrip_idem (s : string) : rstrip (rstrip s) = rstrip s.
Proof.
  induction s as [|c s IH]; [done|].
  rewrite rstrip_cons. destruct (rstrip s) as [|a r] eqn:Hr.
  - destruct (isspace c) eqn:Hc; [done|]. rewrite rstrip_cons. simpl. by rewrite Hc.
  - rewrite rstrip_cons. by rewrite IH.
Qed.

Lemma lstrip_head (s : string) :
  match lstrip s with
  | EmptyString => True
  | String c _ => isspace c = false
  end.
Proof.
  induction s as [|c s IH]; [done|].
  cbn [lstrip]. by destruct (isspace c) eqn:Hc.
Qed.

(** [strip] leaves nothing to strip. *)
Lemma strip_idem (s : string) : strip (strip s) = strip s.
Proof.
  unfold strip. pose proof (lstrip_head s) as Hh.
  destruct (lstrip s) as [|c u]; [done|].
  assert (lstrip (rstrip (String c u)) = rstrip (String c u)) as ->.
  { rewrite rstrip_cons. destruct (rstrip u); rewrite ?Hh; cbn [lstrip]; by rewrite Hh. }
  apply rstrip_idem.
Qed.

Lemma length_drop_le (k : nat) (s : string) :
  (String.length (drop k s) <= String.length s)%nat.
Proof.
  revert k. induction s as [|c s IH]; intros [|k]; simpl; try lia.
  specialize (IH k). lia.
Qed.

Lemma replace_from_skip (old new : string) (k : nat) (s : string) :
  replace_from old new k s = replace_from old new 0 (drop k s).
Proof.
  revert k. induction s as [|c s IH]; intros [|k]; try done.
  cbn [replace_from drop]. apply IH.
Qed.

(** The unfolding of [replace] at a non-empty string. *)
Lemma replace_cons (old new : string) (c : ascii) (s : string) :
  replace old new (String c s) =
    if startswith old (String c s)
    then new +:+ replace old new (drop (String.length old - 1) s)
    else String c (replace old new s).
Proof.
  unfold replace. cbn [replace_from].
  destruct (startswith old (String c s)); [|done].
  by rewrite replace_from_skip.
Qed.

Lemma no_fence_after_replace_aux (n : nat) (s : string) :
  (String.length s <= n)%nat →
  contains fence (replace fence EmptyString s) = false
  ∧ (startswith (String backtick EmptyString) s = false →
     startswith (String backtick EmptyString) (replace fence EmptyString s) = false)
  ∧ (startswith (String backtick (String backtick EmptyString)) s = false →
     startswith (String backtick (String backtick EmptyString))
       (replace fence EmptyString s) = false).
Proof.
  revert s. induction n as [|n IH]; intros s Hlen.
  { destruct s; [by repeat split | simpl in Hlen; lia]. }
  destruct s as [|c s]; [by repeat split|].
  rewrite replace_cons. simpl in Hlen.
  destruct (startswith fence (String c s)) eqn:Hf.
  - rewrite append_nil.
    destruct (IH (drop (String.length fence - 1) s)) as (H1 & H2 & H3).
    { pose proof (length_drop_le (String.length fence - 1) s). lia. }
    split; [exact H1|].
    pose proof (startswith_prefix_of (String backtick EmptyString)
                  (String backtick (String backtick EmptyString)) _ Hf) as Hb1.
    pose proof (startswith_prefix_of (String backtick (String backtick EmptyString))
                  (String backtick EmptyString) _ Hf) as Hb2.
    split; intros Hno; congruence.
  - destruct (IH s) as (H1 & H2 & H3); [lia|].
    unfold fence in Hf. rewrite startswith_cons in Hf.
    split; [|split].
    + rewrite contains_cons, H1, orb_false_r.
      unfold fence. rewrite startswith_cons.
      destruct (decide (backtick = c)); [|done]. by apply H3.
    + rewrite !startswith_cons. by destruct (decide (backtick = c)).
    + rewrite !startswith_cons. destruct (decide (backtick = c)); [|done].
      apply H2.
Qed.

(** After [replace("```", "")] no fence is left, also where removing one
    brings back-ticks together. *)
Lemma no_fence_after_replace (s : string) :
  contains fence (replace fence EmptyString s) = false.
Proof. by apply (no_fence_after_replace_aux (String.length s) s). Qed.

Lemma clean_script_no_fence (script : string) :
  contains fence (clean_script script) = false.
Proof.
  unfold clean_script.
  destruct (contains fence (strip _)) eqn:Hc; [|done].
  apply contains_strip in Hc.
  change "```" with fence in Hc. by rewrite no_fence_after_replace in Hc.
Qed.

Lemma clean_script_stripped (script : string) :
  strip (clean_script script) = clean_script script.
Proof. unfold clean_script. apply strip_idem. Qed.

End CleanScript.

(** ** Script generation, end to end *)

Section ScriptGenerationMore.
Context `{P : Providers}.
Import PyStr.

(** What a returned script went through. *)
Lemma generate_selenium_script_ok (test_case : TestCase)
    (html_content api_key : option string) (w w' : World) (script : string) :
  generate_selenium_script test_case html_content api_key w = (Ok script, w') →
  ∃ docs html raw,
    retriever_invoke (vector_store (engine w)) 3 (Some ("doc_type", "support"))
      (feature test_case) = Ok docs
    ∧ fst (resolve_html_source html_content w) = Ok (Some html)
    ∧ truthy html = true
    ∧ script_chain (script_call test_case api_key w docs html) = Ok raw
    ∧ script = clean_script raw
    ∧ _validate_selenium_script script html = Ok tt
    ∧ w' = log_llm (script_call test_case api_key w docs html)
             (snd (resolve_html_source html_content w)).
Proof.
  destruct (retriever_invoke (vector_store (engine w)) 3 (Some ("doc_type", "support"))
              (feature test_case)) as [docs|e0] eqn:Hdocs.
  - rewrite (generate_selenium_script_unfold _ _ _ _ _ Hdocs).
    destruct (resolve_html_source html_content w) as [[[html|]|e] w1]; try done.
    destruct (truthy html) eqn:Ht; [|done]. cbv zeta.
    destruct (script_chain _) as [raw|e] eqn:Hraw; [|done].
    destruct (_validate_selenium_script _ _) as [[]|e] eqn:Hv; [|done].
    intros [= <- <-]. by exists docs, html, raw.
  - unfold generate_selenium_script, store_retrieve. run. by rewrite Hdocs.
Qed.

(** A script that is returned has passed validation: it has at least one
    selector lookup, and no lookup in it is offending for the markup the
    call resolved. *)
Theorem returned_script_selectors_exist (test_case : TestCase)
    (html_content api_key : option string) (w w' : World) (script : string) :
  generate_selenium_script test_case html_content api_key w = (Ok script, w') →
  ∃ html,
    fst (resolve_html_source html_content w) = Ok (Some html)
    ∧ SelectorPattern.findall script ≠ []
    ∧ ∀ method selector,
        (method, selector) ∈ SelectorPattern.findall script →
        ¬ offending (html_ids html) (html_names html) (html_classes html)
            method selector.
Proof.
  intros (docs & html & raw & _ & Hsrc & _ & _ & _ & Hv & _)%generate_selenium_script_ok.
  exists html. split; [done|].
  assert (¬ ∃ e, _validate_selenium_script script html = Raise e) as Hok.
  { intros [e He]. congruence. }
  rewrite validate_selenium_script_raise_iff in Hok.
  split; [intros He; apply Hok; by left|].
  intros m s Hin Ho. apply Hok. right. eauto.
Qed.

(** A script that is returned carries no Markdown fence and no surrounding
    white space. *)
Theorem returned_script_is_clean (test_case : TestCase)
    (html_content api_key : option string) (w w' : World) (script : string) :
  generate_selenium_script test_case html_content api_key w = (Ok script, w') →
  contains "```" script = false ∧ strip script = script.
Proof.
  intros (docs & html & raw & _ & _ & _ & _ & -> & _)%generate_selenium_script_ok.
  split; [apply clean_script_no_fence | apply clean_script_stripped].
Qed.

Lemma resolve_html_source_given (html_content : option string) (w : World) :
  truthy_opt html_content = true ∨ truthy_opt (latest_html_content (engine w)) = true →
  snd (resolve_html_source html_content w) = w.
Proof.
  unfold resolve_html_source.
  destruct (truthy_opt html_content); [done|].
  intros [?|Hc]; [done|]. by rewrite get_latest_html_content_run, Hc.
Qed.

Lemma generate_selenium_script_world (test_case : TestCase)
    (html_content api_key : option string) (w : World) :
  ∃ calls,
    snd (generate_selenium_script test_case html_content api_key w)
    = mkWorld (engine (snd (resolve_html_source html_content w))) (fs w) (environ w)
        calls (stdout w)
    ∨ snd (generate_selenium_script test_case html_content api_key w) = w.
Proof.
  destruct (retriever_invoke (vector_store (engine w)) 3 (Some ("doc_type", "support"))
              (feature test_case)) as [docs|e0] eqn:Hdocs.
  - rewrite (generate_selenium_script_unfold _ _ _ _ _ Hdocs).
    destruct (resolve_html_source_world html_content w) as (pa & c & Hw).
    destruct (resolve_html_source html_content w) as [[source|e] w1];
      simpl in Hw; subst w1; simpl.
    + destruct source as [html|]; [|by eexists; left].
      destruct (truthy html); [|by eexists; left]. cbv zeta.
      destruct (script_chain _); [|by eexists; left].
      destruct (_validate_selenium_script _ _); by eexists; left.
    + by eexists; left.
  - exists []. right. unfold generate_selenium_script, store_retrieve. run.
    by rewrite Hdocs.
Qed.

(** Script generation never touches the vector store or the file system,
    whether it returns or raises; and when the markup comes from the argument
    or from the in-memory cache, it leaves the whole engine as it was. *)
Theorem script_generation_frame (test_case : TestCase)
    (html_content api_key : option string) (w : World) :
  vector_store (engine (snd (generate_selenium_script test_case html_content api_key w)))
  = vector_store (engine w)
  ∧ fs (snd (generate_selenium_script test_case html_content api_key w)) = fs w
  ∧ (truthy_opt html_content = true
     ∨ truthy_opt (latest_html_content (engine w)) = true →
     engine (snd (generate_selenium_script test_case html_content api_key w))
     = engine w).
Proof.
  destruct (generate_selenium_script_world test_case html_content api_key w)
    as [calls [Hw|Hw]]; rewrite Hw; [|done].
  destruct (resolve_html_source_world html_content w) as (pa & c & Hr).
  cbn [engine fs snd]. split; [by rewrite Hr|]. split; [done|].
  intros Hgiven. by rewrite (resolve_html_source_given _ _ Hgiven).
Qed.

(** Cold-start recovery: with no argument, nothing cached and no usable
    cached path, the first page-markup file of the upload directory is read,
    handed to the model as the page source, and kept in the cache whatever
    the model and the validation do next; the next resolution then answers
    from memory. *)
Theorem markup_recovered_from_uploads (test_case : TestCase)
    (html_content api_key : option string) (w : World) (docs : list Document)
    (path content : string) :
  retriever_invoke (vector_store (engine w)) 3 (Some ("doc_type", "support"))
    (feature test_case) = Ok docs →
  truthy_opt html_content = false →
  truthy_opt (latest_html_content (engine w)) = false →
  cached_path_exists w = false →
  first_markup_upload (fs w) = Some path →
  files (fs w) !! path = Some content →
  truthy content = true →
  let w' := snd (generate_selenium_script test_case html_content api_key w) in
  cached_page w' = (Some path, Some content)
  ∧ llm_calls w' = (llm_calls w ++ [script_call test_case api_key w docs content])%list
  ∧ resolve_html_source None w' = (Ok (Some content), w').
Proof.
  intros Hdocs Ho Hc Hp Hfirst Hfile Ht w'. subst w'.
  rewrite (generate_selenium_script_unfold _ _ _ _ _ Hdocs).
  assert (resolve_html_source html_content w
          = (Ok (Some content),
             set_engine (set_latest_html_path (Some path))
               (set_engine (set_latest_html_content (Some content)) w))) as ->.
  { unfold resolve_html_source. rewrite Ho, get_latest_html_content_run, Hc, Hp.
    by rewrite scan_upload_dir_run, Hfirst, Hfile. }
  rewrite Ht. cbv zeta.
  assert (∀ calls,
            resolve_html_source None
              (mkWorld (mkEngine (vector_store (engine w)) (Some path) (Some content))
                 (fs w) (environ w) calls (stdout w))
            = (Ok (Some content),
               mkWorld (mkEngine (vector_store (engine w)) (Some path) (Some content))
                 (fs w) (environ w) calls (stdout w))) as Hagain.
  { intros calls. unfold resolve_html_source. simpl.
    rewrite get_latest_html_content_run. simpl. by rewrite Ht. }
  destruct (script_chain _) as [raw|e]; [|by split; [|split; [|apply Hagain]]].
  destruct (_validate_selenium_script _ _);
    by split; [|split; [|apply Hagain]].
Qed.

End ScriptGenerationMore.

(** ** The generation handlers *)

Section HandlersMore.
Context `{P : Providers}.
Import PyStr.

Lemma api_generate_test_cases_run (query : string) (x_api_key : option string)
    (w : World) :
  api_generate_test_cases query x_api_key w =
    match generate_test_cases query x_api_key w with
    | (Ok plan, w') => (Ok plan, w')
    | (Raise e, w') => (Raise (HTTPException 500 (exc_str e)), w')
    end.
Proof. unfold api_generate_test_cases. run. by destruct (generate_test_cases _ _ _) as [[]]. Qed.

Lemma api_generate_script_run (test_case : TestCase)
    (html_content x_api_key : option string) (w : World) :
  api_generate_script test_case html_content x_api_key w =
    match generate_selenium_script test_case html_content x_api_key w with
    | (Ok script, w') => (Ok script, w')
    | (Raise e, w') => (Raise (HTTPException 500 (exc_str e)), w')
    end.
Proof.
  unfold api_generate_script. run.
  by destruct (generate_selenium_script _ _ _ _) as [[]].
Qed.

(** The plan endpoint fails only with HTTP 500, and a grounding failure
    reaches the client whole: the detail of the response contains the
    [test_id:source] text of every violating case. *)
Theorem api_reports_every_grounding_violation (query : string)
    (x_api_key : option string) (w : World) :
  (∀ e, fst (api_generate_test_cases query x_api_key w) = Raise e →
        ∃ detail, e = HTTPException 500 detail)
  ∧ (∀ docs plan,
       retriever_invoke (vector_store (engine w)) 6 None query = Ok docs →
       _collect_sources docs ≠ ∅ →
       plan_chain (plan_call query x_api_key w docs) = Ok plan →
       (∃ c, c ∈ test_cases plan ∧ strip (grounded_in c) ∉ _collect_sources docs) →
       ∃ detail,
         fst (api_generate_test_cases query x_api_key w)
         = Raise (HTTPException 500 detail)
         ∧ ∀ c, c ∈ test_cases plan →
                strip (grounded_in c) ∉ _collect_sources docs →
                contains (violation_text c) detail = true).
Proof.
  rewrite api_generate_test_cases_run. split.
  - destruct (generate_test_cases query x_api_key w) as [[plan|e0] w']; [done|].
    intros e [= <-]. by eexists.
  - intros docs plan Hdocs Hne Hplan Hbad.
    rewrite (generate_test_cases_unfold _ _ _ _ Hdocs), Hplan.
    destruct (validate_grounding_raise plan _ Hne Hbad) as (msg & -> & Hmsg).
    exists msg. by split.
Qed.

(** The script endpoint fails only with HTTP 500; with no markup to resolve
    the detail is the missing-markup text, and a selector failure reaches the
    client whole: the detail contains [method:selector] for every offending
    lookup of the cleaned script. *)
Theorem api_reports_every_missing_selector (test_case : TestCase)
    (html_content x_api_key : option string) (w : World) :
  (∀ e, fst (api_generate_script test_case html_content x_api_key w) = Raise e →
        ∃ detail, e = HTTPException 500 detail)
  ∧ (∀ docs source,
       retriever_invoke (vector_store (engine w)) 3 (Some ("doc_type", "support"))
         (feature test_case) = Ok docs →
       fst (resolve_html_source html_content w) = Ok source →
       truthy_opt source = false →
       fst (api_generate_script test_case html_content x_api_key w)
       = Raise (HTTPException 500 no_html_msg))
  ∧ (∀ docs html raw,
       retriever_invoke (vector_store (engine w)) 3 (Some ("doc_type", "support"))
         (feature test_case) = Ok docs →
       fst (resolve_html_source html_content w) = Ok (Some html) →
       truthy html = true →
       script_chain (script_call test_case x_api_key w docs html) = Ok raw →
       (∃ method selector,
          (method, selector) ∈ SelectorPattern.findall (clean_script raw)
          ∧ offending (html_ids html) (html_names html) (html_classes html)
              method selector) →
       ∃ detail,
         fst (api_generate_script test_case html_content x_api_key w)
         = Raise (HTTPException 500 detail)
         ∧ ∀ method selector,
             (method, selector) ∈ SelectorPattern.findall (clean_script raw) →
             offending (html_ids html) (html_names html) (html_classes html)
               method selector →
             contains (method +:+ ":" +:+ selector) detail = true).
Proof.
  rewrite api_generate_script_run. split; [|split].
  - destruct (generate_selenium_script _ _ _ _) as [[script|e0] w']; [done|].
    intros e [= <-]. by eexists.
  - intros docs source Hdocs Hsrc Hempty.
    rewrite (generate_selenium_script_unfold _ _ _ _ _ Hdocs).
    destruct (resolve_html_source html_content w) as [[source'|e] w1]; [|done].
    simpl in Hsrc. injection Hsrc as ->.
    destruct source as [html|]; [|done]. simpl in Hempty. by rewrite Hempty.
  - intros docs html raw Hdocs Hsrc Ht Hraw Hbad.
    rewrite (generate_selenium_script_unfold _ _ _ _ _ Hdocs).
    destruct (resolve_html_source html_content w) as [[source'|e] w1]; [|done].
    simpl in Hsrc. injection Hsrc as ->. rewrite Ht. cbv zeta. rewrite Hraw.
    assert (∃ e, _validate_selenium_script (clean_script raw) html = Raise e)
      as [e He].
    { apply validate_selenium_script_raise_iff. by right. }
    rewrite He. simpl.
    assert (SelectorPattern.findall (clean_script raw) ≠ []) as Hne.
    { destruct Hbad as (m & s & Hin & _). intros Hnil. rewrite Hnil in Hin.
      by apply elem_of_nil in Hin. }
    rewrite (validate_selenium_script_message _ _ _ Hne He). simpl.
    eexists. split; [reflexivity|]. intros m s Hin Ho.
    unfold selector_detail. apply contains_join.
    apply list_elem_of_fmap. exists (m, s). split; [done|].
    by apply missing_selectors_elem.
Qed.

End HandlersMore.

(** ** What the selector pattern extracts *)

Section PatternMore.
Import PyStr SelectorPattern.

Lemma take_non_quote_no_quote (s a r : string) (q : ascii) :
  take_non_quote s = (a, r) → is_quote q = true →
  contains (String q EmptyString) a = false.
Proof.
  revert a r. induction s as [|c s IH]; intros a r.
  - by intros [= <- _] _.
  - cbn [take_non_quote]. destruct (is_quote c) eqn:Hc; [by intros [= <- _] _|].
    destruct (take_non_quote s) as [a' r'] eqn:Ht. intros [= <- _] Hq.
    rewrite contains_cons, (IH a' r' eq_refl Hq), orb_false_r.
    rewrite startswith_cons. destruct (decide (q = c)) as [->|]; [congruence|done].
Qed.

Lemma match_at_no_quote (s method selector rest : string) (q : ascii) :
  match_at s = Some (method, selector, rest) → is_quote q = true →
  contains (String q EmptyString) selector = false.
Proof.
  unfold match_at.
  destruct (strip_prefix "By." s) as [s1|]; cbn [mbind option_bind]; [|done].
  destruct (method_group s1) as [[m s2]|]; cbn [mbind option_bind]; [|done].
  destruct (strip_prefix "," (lstrip s2)) as [s4|]; cbn [mbind option_bind]; [|done].
  destruct (lstrip s4) as [|q0 s6]; [done|].
  destruct (is_quote q0); [|done].
  destruct (take_non_quote s6) as [[|c sel] [|q' s8]] eqn:Ht; try done.
  intros [= _ <- _] Hq. by eapply take_non_quote_no_quote.
Qed.

(** Every lookup the pattern extracts has one of the three kinds and a
    literal that is not empty and holds no quote character: a selector that
    contains a quote is read only up to it. *)
Theorem findall_matches_wellformed (script method selector : string) :
  (method, selector) ∈ findall script →
  (method = "ID" ∨ method = "NAME" ∨ method = "CSS_SELECTOR")
  ∧ selector ≠ EmptyString
  ∧ contains (String squote EmptyString) selector = false
  ∧ contains (String dquote EmptyString) selector = false.
Proof.
  unfold findall. generalize 0 as skip.
  induction script as [|c script IH]; intros skip; [by intros ?%elem_of_nil|].
  cbn [findall_from]. destruct skip as [|k]; [|apply IH].
  destruct (match_at (String c script)) as [[[m sel] rest]|] eqn:Hm; [|apply IH].
  intros [[= -> ->]|Hin]%elem_of_cons; [|by eapply IH].
  destruct (match_at_groups _ _ _ _ Hm) as [Hk Hne].
  split; [done|]. split; [done|].
  split; by eapply match_at_no_quote.
Qed.

End PatternMore.

(** ** One notion of page-markup file across the build, the loader and the scan *)

Section PathFacts.
Import PyStr PyPath.

Lemma length_drop (k : nat) (s : string) :
  String.length (drop k s) = (String.length s - k)%nat.
Proof. revert k. induction s as [|c s IH]; intros [|k]; simpl; auto. Qed.

Lemma drop_drop (a b : nat) (s : string) : drop a (drop b s) = drop (b + a) s.
Proof.
  revert b. induction s as [|c s IH]; intros [|b]; simpl; try done.
  by destruct a.
Qed.

Lemma length_lower (s : string) : String.length (lower s) = String.length s.
Proof. induction s as [|c s IH]; simpl; [done | by rewrite IH]. Qed.

Lemma lower_drop (k : nat) (s : string) : lower (drop k s) = drop k (lower s).
Proof. revert k. induction s as [|c s IH]; intros [|k]; simpl; auto. Qed.

Lemma rfind_lt (c : ascii) (s : string) (i : nat) :
  rfind c s = Some i → (i < String.length s)%nat.
Proof.
  revert i. induction s as [|a s IH]; intros i; simpl; [done|].
  destruct (rfind c s) as [j|].
  - intros [= <-]. specialize (IH j eq_refl). lia.
  - destruct (decide (a = c)); intros [= <-]; lia.
Qed.

Lemma rfind_drop (c : ascii) (s : string) (d k : nat) :
  rfind c s = Some d → (k <= d)%nat → rfind c (drop k s) = Some (d - k)%nat.
Proof.
  revert d k. induction s as [|a s IH]; intros d k; [done|].
  destruct k as [|k].
  { intros H _. simpl drop. rewrite H. f_equal. lia. }
  cbn [rfind drop]. destruct (rfind c s) as [j|] eqn:Hj.
  - intros [= <-] Hk. rewrite (IH j k eq_refl) by lia. f_equal.
  - destruct (decide (a = c)); [|done]. intros [= <-] Hk. lia.
Qed.

Lemma has_non_dot_lt (p : string) (i d : nat) :
  has_non_dot p i d = true → (i < d)%nat.
Proof.
  revert i d. induction p as [|c p IH]; intros i d; [done|].
  cbn [has_non_dot]. destruct d as [|d]; [done|].
  destruct i as [|i]; [lia|]. intros H%IH. lia.
Qed.

(** The last component of a path is what follows its last separator. *)
Lemma split_sep_last (cur p : string) :
  last (split_sep cur p)
  = Some (match rfind sep p with
          | Some i => drop (S i) p
          | None => cur +:+ p
          end).
Proof.
  revert cur. induction p as [|c p IH]; intros cur.
  - simpl. by rewrite app_empty_r.
  - cbn [split_sep rfind]. destruct (decide (c = sep)) as [->|Hc].
    + rewrite last_cons, IH. by destruct (rfind sep p).
    + rewrite IH. destruct (rfind sep p); [done|].
      by rewrite app_assoc_str.
Qed.

(** The component after the last separator, [os.path.basename]. *)
Lemma basename_drop (p : string) :
  basename p = drop (match rfind sep p with Some i => S i | None => O end) p.
Proof. unfold basename. by destruct (rfind sep p). Qed.

Lemma name_basename (p : string) :
  (2 <= String.length (basename p))%nat → name p = basename p.
Proof.
  intros Hlen. unfold name, parts.
  pose proof (split_sep_last EmptyString p) as Hl.
  assert (match rfind sep p with
          | Some i => drop (S i) p
          | None => EmptyString +:+ p
          end = basename p) as Hb.
  { unfold basename. by destruct (rfind sep p). }
  rewrite Hb in Hl. apply last_Some in Hl as [l' Hl].
  rewrite Hl, filter_app, filter_cons, decide_True.
  - by rewrite filter_nil, last_snoc.
  - split; intros E; rewrite E in Hlen; simpl in Hlen; lia.
Qed.

(** Where [os.path.splitext] finds an extension of two characters or more,
    [pathlib]'s [suffix] is that extension. *)
Lemma suffix_of_splitext (p : string) :
  (2 <= String.length (splitext_ext p))%nat → suffix p = splitext_ext p.
Proof.
  unfold splitext_ext. intros Hlen.
  destruct (rfind extsep p) as [d|] eqn:Hd; [|simpl in Hlen; lia].
  set (fi := match rfind sep p with Some i => S i | None => O end) in *.
  destruct (fi <=? d)%nat eqn:Hfi; [|simpl in Hlen; lia].
  destruct (has_non_dot p fi d) eqn:Hnd; [|simpl in Hlen; lia].
  simpl in Hlen. simpl.
  apply Nat.leb_le in Hfi. apply has_non_dot_lt in Hnd.
  rewrite length_drop in Hlen.
  assert (String.length (basename p) = (String.length p - fi)%nat) as Hbl.
  { by rewrite basename_drop, length_drop. }
  unfold suffix. rewrite name_basename by lia.
  rewrite basename_drop. fold fi.
  rewrite (rfind_drop _ _ _ _ Hd Hfi), length_drop.
  assert ((0 <? d - fi)%nat = true) as -> by (apply Nat.ltb_lt; lia).
  assert ((d - fi <? String.length p - fi - 1)%nat = true) as ->
    by (apply Nat.ltb_lt; lia).
  simpl. rewrite drop_drop. f_equal. lia.
Qed.

Lemma has_html_extension_length (p : string) :
  has_html_extension p = true → (2 <= String.length (splitext_ext p))%nat.
Proof.
  unfold has_html_extension.
  intros [H|H]%orb_true_iff; apply bool_decide_eq_true in H;
    apply (f_equal String.length) in H; rewrite length_lower in H;
    simpl in H; lia.
Qed.

(** What the build handler counts as page markup, the loader loads as page
    markup. *)
Lemma has_html_extension_loader (p : string) :
  has_html_extension p = true → is_html_ext (lower (suffix p)) = true.
Proof.
  intros H. rewrite suffix_of_splitext by by apply has_html_extension_length.
  exact H.
Qed.

End PathFacts.

Section MarkupKinds.
Context `{P : Providers}.
Import PyStr.

(** A file the build handler counts as page markup is loaded as page markup:
    its document is tagged "html", and loading it makes it the cached page. *)
Theorem build_markup_is_loaded_as_markup (file_path : string) (w : World) (raw : string) :
  has_html_extension file_path = true →
  files (fs w) !! file_path = Some raw →
  base_doc_type file_path = "html"
  ∧ ∃ w', _load_with_metadata file_path w
          = (Ok [mkDocument (soup_get_text raw) (base_metadata file_path)], w')
      ∧ cached_page w' = (Some file_path, Some raw).
Proof.
  intros Hext%has_html_extension_loader Hraw. split.
  - unfold base_doc_type. by rewrite Hext.
  - rewrite (load_html_run _ _ Hext), Hraw. by eexists.
Qed.

Lemma split_at_last {A} (f : A → bool) (l : list A) :
  Forall (fun y => f y = false) l
  ∨ ∃ l1 x l2, l = (l1 ++ x :: l2)%list ∧ f x = true ∧ Forall (fun y => f y = false) l2.
Proof.
  induction l as [|x l [IH|(l1 & y & l2 & -> & Hy & Hl2)]].
  - by left.
  - destruct (f x) eqn:Hx.
    + right. by exists [], x, l.
    + left. by constructor.
  - right. by exists (x :: l1), y, l2.
Qed.

Lemma Exists_split_at_last {A} (f : A → bool) (l : list A) :
  Exists (fun x => f x = true) l →
  ∃ l1 x l2, l = (l1 ++ x :: l2)%list ∧ f x = true ∧ Forall (fun y => f y = false) l2.
Proof.
  intros (x & Hx & Hfx)%Exists_exists.
  destruct (split_at_last f l) as [Hall|?]; [|done].
  rewrite Forall_forall in Hall. specialize (Hall x Hx). congruence.
Qed.

Lemma build_knowledge_base_ok (w w' : World) (resp : BuildResponse) :
  build_knowledge_base w = (Ok resp, w') →
  ∃ names,
    dirs (fs w) !! UPLOAD_DIR = Some names
    ∧ Exists (fun p => has_html_extension p = true) (PyPath.join UPLOAD_DIR <$> names)
    ∧ ingest_documents (PyPath.join UPLOAD_DIR <$> names) (snd (clear_database w))
      = (Ok (chunks_processed resp), w').
Proof.
  unfold build_knowledge_base, listdir. run.
  destruct (dirs (fs w) !! UPLOAD_DIR) as [names|] eqn:Hdir; [|done].
  set (paths := PyPath.join UPLOAD_DIR <$> names).
  destruct paths as [|p0 paths0] eqn:Hpaths; [done|]. rewrite <- Hpaths.
  destruct (filter (fun f => has_html_extension f = true) paths) eqn:Hhtml;
    [done|].
  destruct (filter (fun f => has_html_extension f = false) paths) eqn:Hsup;
    [done|].
  destruct (clear_database w) as [[[]|e] w0]; [|done]. simpl.
  destruct (ingest_documents paths w0) as [[n|e] w1] eqn:Hing; simpl;
    [|by intros [=]].
  intros [= <- <-]. exists names. split; [done|]. split; [|done].
  apply (filter_Exists has_html_extension true). fold paths. by rewrite Hhtml.
Qed.

(** After a build that returns, the cached page is the last file of the
    upload listing that the loader takes for page markup, no file after it
    in the listing being one, together with the text of that file; if that
    text is not empty, script generation resolves its markup from memory
    with no further reading. *)
Theorem build_leaves_markup_cached (w w' : World) (resp : BuildResponse) :
  build_knowledge_base w = (Ok resp, w') →
  ∃ before name after raw,
    dirs (fs w) !! UPLOAD_DIR = Some (before ++ name :: after)%list
    ∧ is_html_ext (lower (PyPath.suffix (PyPath.join UPLOAD_DIR name))) = true
    ∧ Forall (fun n => is_html_ext (lower (PyPath.suffix (PyPath.join UPLOAD_DIR n))) = false)
        after
    ∧ files (fs w) !! PyPath.join UPLOAD_DIR name = Some raw
    ∧ cached_page w' = (Some (PyPath.join UPLOAD_DIR name), Some raw)
    ∧ (truthy raw = true → resolve_html_source None w' = (Ok (Some raw), w')).
Proof.
  intros (names & Hdir & Hex & Hing)%build_knowledge_base_ok.
  assert (Exists (fun n => is_html_ext (lower (PyPath.suffix (PyPath.join UPLOAD_DIR n)))
                           = true) names) as Hex'.
  { apply Exists_exists in Hex as (p & (n & -> & Hn)%list_elem_of_fmap & Hh).
    apply Exists_exists. exists n. split; [done|]. by apply has_html_extension_loader. }
  destruct (Exists_split_at_last
              (fun n => is_html_ext (lower (PyPath.suffix (PyPath.join UPLOAD_DIR n)))) _ Hex')
    as (before & name & after & -> & Hext & Hafter).
  rewrite ingest_documents_run in Hing.
  assert (fs (snd (clear_database w)) = fs w) as Hfs by by rewrite clear_database_run.
  assert (cached_page (snd (clear_database w)) = (None, None)) as Hc0
    by by rewrite clear_database_run.
  destruct (load_all _ [] (snd (clear_database w))) as [[docs|e] w1] eqn:Hload;
    [|done].
  destruct (load_all_cached _ _ _ _ _ Hload) as [Hcache Hfiles].
  rewrite Hfs in Hcache, Hfiles.
  destruct (Hfiles (PyPath.join UPLOAD_DIR name)) as [raw Hraw];
    [apply list_elem_of_fmap; exists name; split; [done|set_solver] | done |].
  exists before, name, after, raw. do 4 (split; [done|]).
  assert (cached_page w' = (Some (PyPath.join UPLOAD_DIR name), Some raw)) as Hcached.
  { injection Hing as _ <-.
    change (cached_page (set_engine _ w1)) with (cached_page w1).
    rewrite Hcache, fmap_app, fmap_cons.
    apply most_recent_markup_last; [done|done|].
    by apply Forall_fmap. }
  split; [done|].
  intros Ht. unfold resolve_html_source. simpl.
  rewrite get_latest_html_content_run.
  unfold cached_page in Hcached. injection Hcached as _ Hcontent.
  rewrite Hcontent. simpl. by rewrite Ht.
Qed.

End MarkupKinds.

Section ScanKinds.
Import PyStr PyPath.

Lemma endswith_of_drop (x s : string) (d : nat) :
  drop d s = x → x ≠ EmptyString → endswith x s = true.
Proof.
  intros Hx Hne. unfold endswith.
  assert (String.length x = (String.length s - d)%nat) as Hlen
    by by rewrite <- Hx, length_drop.
  assert (0 < String.length x)%nat as Hpos.
  { destruct x; [done | simpl; lia]. }
  apply andb_true_iff. split.
  - apply Nat.leb_le. lia.
  - apply bool_decide_eq_true. rewrite <- Hx at 2. f_equal. lia.
Qed.

Lemma splitext_ext_drop (p : string) :
  splitext_ext p ≠ EmptyString →
  ∃ d, splitext_ext p = drop d p
       ∧ (match rfind sep p with Some i => S i | None => O end <= d)%nat.
Proof.
  unfold splitext_ext.
  destruct (rfind extsep p) as [d|]; [|done].
  destruct (_ <=? d)%nat eqn:Hfi; [|done].
  destruct (has_non_dot p _ d); [|done].
  intros _. exists d. split; [done|]. by apply Nat.leb_le.
Qed.

Lemma rfind_app_ge (c : ascii) (pre s : string) (i : nat) :
  rfind c pre = Some i → ∃ j, rfind c (pre +:+ s) = Some j ∧ (i <= j)%nat.
Proof.
  revert i. induction pre as [|a pre IH]; intros i; [done|].
  rewrite append_cons. cbn [rfind].
  destruct (rfind c pre) as [i'|] eqn:Hp.
  - intros [= <-]. destruct (IH i' eq_refl) as (j & -> & Hj).
    exists (S j). split; [done|lia].
  - destruct (decide (a = c)); [|done]. intros [= <-].
    destruct (rfind c (pre +:+ s)); eexists; (split; [done|lia]).
Qed.

Lemma drop_app_ge (pre s : string) (d : nat) :
  (String.length pre <= d)%nat → drop d (pre +:+ s) = drop (d - String.length pre) s.
Proof.
  revert d. induction pre as [|a pre IH]; intros d Hd.
  - rewrite append_nil. f_equal. simpl. lia.
  - rewrite append_cons. destruct d as [|d]; [simpl in Hd; lia|].
    simpl in Hd. simpl. apply IH. lia.
Qed.

Lemma ends_like_markup (x s : string) (d : nat) :
  lower (drop d s) = x → x = ".html" ∨ x = ".htm" → is_markup_name s = true.
Proof.
  intros Hx Hk. rewrite lower_drop in Hx. unfold is_markup_name.
  apply orb_true_iff.
  destruct Hk as [->| ->]; [left|right]; by apply (endswith_of_drop _ _ d).
Qed.

Lemma first_markup_Some (names : list string) (name : string) :
  name ∈ names → is_markup_name name = true → is_Some (first_markup names).
Proof.
  induction names as [|n names IH]; [by intros ?%elem_of_nil|].
  cbn [first_markup]. destruct (is_markup_name n) eqn:Hn; [by eexists|].
  intros [->|Hin]%elem_of_cons Hm; [congruence | by apply IH].
Qed.

(** A name the build handler counts as page markup is a page-markup name for
    the cold-start scan as well, so the scan of a listing the build accepted
    always finds a candidate. *)
Theorem build_markup_found_by_scan (names : list string) (name : string) :
  name ∈ names →
  has_html_extension (join UPLOAD_DIR name) = true →
  is_markup_name name = true ∧ is_Some (first_markup names).
Proof.
  intros Hin Hh.
  assert (is_markup_name name = true) as Hm; [|split; [done|by eapply first_markup_Some]].
  assert (∃ x, lower (splitext_ext (join UPLOAD_DIR name)) = x
               ∧ (x = ".html" ∨ x = ".htm")) as (x & Hx & Hk).
  { unfold has_html_extension in Hh. apply orb_true_iff in Hh as [H|H];
      apply bool_decide_eq_true in H; eauto. }
  destruct (splitext_ext_drop (join UPLOAD_DIR name)) as (d & Hd & Hfi).
  { intros E. rewrite E in Hx. destruct Hk; subst; done. }
  rewrite Hd in Hx. revert Hx Hfi. unfold join.
  destruct (startswith "/" name); [intros Hx _; by eapply ends_like_markup|].
  change (endswith "/" UPLOAD_DIR) with false. cbv iota.
  change (UPLOAD_DIR +:+ "/" +:+ name) with ("data/uploads/" +:+ name).
  intros Hx Hfi.
  destruct (rfind_app_ge sep "data/uploads/" name 12 eq_refl) as (j & Hj & Hle).
  rewrite Hj in Hfi.
  rewrite drop_app_ge in Hx by (simpl; lia).
  by eapply ends_like_markup.
Qed.

End ScanKinds.

(** ** The order in which the page markup is resolved *)

Section MarkupPriority.
Context `{P : Providers}.
Import PyStr.

Lemma length_append (a b : string) :
  String.length (a +:+ b) = (String.length a + String.length b)%nat.
Proof. induction a as [|c a IH]; [done|]. rewrite append_cons. simpl. by rewrite IH. Qed.

Lemma take_drop (k : nat) (s : string) : take k s +:+ drop k s = s.
Proof.
  revert k. induction s as [|c s IH]; intros [|k]; try done.
  simpl take. simpl drop. by rewrite append_cons, IH.
Qed.

(** [s.endswith(x)] holds exactly when [s] is some string followed by [x]. *)
Lemma endswith_iff (x s : string) : endswith x s = true ↔ ∃ stem, s = stem +:+ x.
Proof.
  unfold endswith. rewrite andb_true_iff, Nat.leb_le, bool_decide_eq_true. split.
  - intros [_ Hd]. exists (take (String.length s - String.length x) s).
    pose proof (take_drop (String.length s - String.length x) s) as Htd.
    by rewrite Hd in Htd.
  - intros [stem ->]. rewrite length_append. split; [lia|].
    rewrite drop_app_ge by lia.
    by replace (String.length stem + String.length x - String.length x
                - String.length stem)%nat with 0%nat by lia.
Qed.

Lemma is_markup_name_iff (filename : string) :
  is_markup_name filename = true ↔ markup_named filename.
Proof.
  unfold is_markup_name, markup_named. rewrite orb_true_iff, !endswith_iff. split.
  - intros [[stem H]|[stem H]]; exists stem; auto.
  - intros (stem & [H|H]); [left|right]; by exists stem.
Qed.

Lemma first_markup_none (names : list string) :
  Forall (fun n => ¬ markup_named n) names → first_markup names = None.
Proof.
  induction 1 as [|n names Hn _ IH]; [done|]. cbn [first_markup].
  destruct (is_markup_name n) eqn:Hm; [|done]. by apply is_markup_name_iff in Hm.
Qed.

Lemma first_markup_split (before after : list string) (name : string) :
  Forall (fun n => ¬ markup_named n) before → markup_named name →
  first_markup (before ++ name :: after) = Some (PyPath.join UPLOAD_DIR name).
Proof.
  intros Hbefore Hname%is_markup_name_iff.
  induction Hbefore as [|n before Hn _ IH]; cbn [first_markup app].
  - by rewrite Hname.
  - destruct (is_markup_name n) eqn:Hm; [|done]. by apply is_markup_name_iff in Hm.
Qed.

(** C4 (as amended). [generate_selenium_script] resolves the markup in a
    fixed order: the [html_content] argument when it is given and not
    empty; else the cached markup when not empty; else the file at the
    cached path when that path is set and exists (reading it may fail);
    else, the upload directory listing being [before], [name], [after] with
    [name] the first file whose lower-cased name ends in .html or .htm, the
    file [name] of the upload directory (reading it may fail); and nothing
    when the listing has no such name.  When what is resolved is nothing or
    empty, no chain is invoked and the call raises; the error is the
    missing-markup [ValueError] whenever the support retrieval before it
    has returned, and the error of that retrieval when it raised. *)
Theorem markup_resolved_by_priority (html_content : option string) (w : World) :
  (truthy_opt html_content = true →
     resolve_html_source html_content w = (Ok html_content, w))
  ∧ (truthy_opt html_content = false →
     truthy_opt (latest_html_content (engine w)) = true →
     resolve_html_source html_content w = (Ok (latest_html_content (engine w)), w))
  ∧ (truthy_opt html_content = false →
     truthy_opt (latest_html_content (engine w)) = false →
     ∀ path, latest_html_path (engine w) = Some path → truthy path = true →
             path_exists (fs w) path = true →
             fst (resolve_html_source html_content w) = read_markup (fs w) path)
  ∧ (truthy_opt html_content = false →
     truthy_opt (latest_html_content (engine w)) = false →
     (∀ path, latest_html_path (engine w) = Some path → truthy path = true →
              path_exists (fs w) path = false) →
     (∀ before name after,
        dirs (fs w) !! UPLOAD_DIR = Some (before ++ name :: after)%list →
        Forall (fun n => ¬ markup_named n) before →
        markup_named name →
        fst (resolve_html_source html_content w)
        = read_markup (fs w) (PyPath.join UPLOAD_DIR name))
     ∧ ((∀ names, dirs (fs w) !! UPLOAD_DIR = Some names →
                  Forall (fun n => ¬ markup_named n) names) →
        fst (resolve_html_source html_content w) = Ok None))
  ∧ (∀ test_case api_key source,
       fst (resolve_html_source html_content w) = Ok source →
       truthy_opt source = false →
       llm_calls (snd (generate_selenium_script test_case html_content api_key w))
       = llm_calls w
       ∧ ∃ e, fst (generate_selenium_script test_case html_content api_key w) = Raise e
           ∧ ∀ docs,
               retriever_invoke (vector_store (engine w)) 3 (Some ("doc_type", "support"))
                 (feature test_case) = Ok docs →
               e = ValueError no_html_msg)
  ∧ (∀ test_case api_key e,
       retriever_invoke (vector_store (engine w)) 3 (Some ("doc_type", "support"))
         (feature test_case) = Raise e →
       generate_selenium_script test_case html_content api_key w = (Raise e, w)).
Proof.
  split; [|split; [|split; [|split; [|split]]]].
  - intros Ho. unfold resolve_html_source. by rewrite Ho.
  - intros Ho Hc. unfold resolve_html_source, _get_latest_html_content. rewrite Ho. run.
    by rewrite Hc.
  - intros Ho Hc path Hp Ht He.
    unfold resolve_html_source, _get_latest_html_content, cached_path_exists, read_file.
    rewrite Ho. run. rewrite Hc, Hp, Ht, He. simpl. unfold read_markup.
    by destruct (files (fs w) !! path).
  - intros Ho Hc Hp%cached_path_unusable.
    rewrite (resolve_by_scan _ _ Ho Hc Hp). unfold first_markup_upload. split.
    + intros before name after Hdir Hbefore Hname.
      by rewrite Hdir, (first_markup_split _ _ _ Hbefore Hname).
    + intros Hnone. destruct (dirs (fs w) !! UPLOAD_DIR) as [names|]; [|done].
      by rewrite (first_markup_none names (Hnone names eq_refl)).
  - intros test_case api_key source. apply generate_selenium_script_no_markup.
  - intros test_case api_key e. apply generate_selenium_script_retrieval_error.
Qed.

End MarkupPriority.

(** ** The further properties on examples *)

Section MoreExamples.
Import PyStr.

Lemma grounded_plan_witness :
  let P := Stub.providers (Ok retrieved_spec) (Ok tt) (Ok grounded_plan) (Ok "") [] in
  let w := Stub.world [] None None (mkFS ∅ ∅) in
  generate_test_cases "discount code tests" None w
  = (Ok grounded_plan,
     mkWorld (engine w) (fs w) (environ w)
       (llm_calls w ++ [plan_call "discount code tests" None w retrieved_spec])%list
       (stdout w)).
Proof.
  intros P w.
  apply (@grounded_plan_returned P "discount code tests" None w retrieved_spec
           grounded_plan); [reflexivity | reflexivity |].
  intros c Hc.
  apply elem_of_cons in Hc as [->|Hc]; [decide_by_compute|].
  apply list_elem_of_singleton in Hc as ->. decide_by_compute.
Defined.

Lemma allowed_sources_shown_witness :
  contains "[Source:spec.md]" (_format_docs retrieved_spec) = true.
Proof.
  apply (allowed_sources_shown_in_context retrieved_spec "spec.md").
  decide_by_compute.
Defined.

Lemma blank_grounding_witness :
  let P := Stub.providers (Ok retrieved_spec) (Ok tt) (Ok Stub.mixed_plan) (Ok "") [] in
  let w := Stub.world [] None None (mkFS ∅ ∅) in
  ∃ msg, fst (generate_test_cases "discount code tests" None w) = Raise (ValueError msg)
    ∧ contains (test_id (Stub.case2 "") +:+ ":missing") msg = true.
Proof.
  intros P w.
  apply (@blank_grounding_rejected P "discount code tests" None w retrieved_spec
           Stub.mixed_plan (Stub.case2 "")); try reflexivity.
  - vm_compute. discriminate.
  - unfold Stub.mixed_plan. simpl. set_solver.
Defined.

Lemma ingest_failure_witness :
  let P := Stub.providers (Ok []) (Ok tt) (Ok Stub.invented_plan) (Ok "") [] in
  let w := Stub.world [Stub.chunk "old text" "old.md"] None None checkout_uploads in
  let batch := [checkout_path; "data/uploads/gone.txt"; "data/uploads/spec.md"] in
  (∃ e, fst (ingest_documents batch w) = Raise e)
  ∧ vector_store (engine (snd (ingest_documents batch w))) = vector_store (engine w)
  ∧ fs (snd (ingest_documents batch w)) = fs w.
Proof.
  intros P w batch.
  apply (@ingest_failure_keeps_store P batch w "data/uploads/gone.txt"
           (OSError "data/uploads/gone.txt")).
  - unfold batch. set_solver.
  - vm_compute. reflexivity.
Defined.

Lemma ingest_last_markup_witness :
  let P := Stub.providers (Ok []) (Ok tt) (Ok Stub.invented_plan) (Ok "") [] in
  let w := Stub.world [] None None two_pages in
  let batch := (["data/uploads/a.html"] ++ "data/uploads/b.HTM" :: ["data/uploads/spec.md"])%list in
  ∃ raw, files (fs w) !! "data/uploads/b.HTM" = Some raw
    ∧ cached_page (snd (ingest_documents batch w)) = (Some "data/uploads/b.HTM", Some raw).
Proof.
  intros P w batch.
  apply (@ingest_last_markup_wins P ["data/uploads/a.html"] ["data/uploads/spec.md"]
           "data/uploads/b.HTM" w (snd (ingest_documents batch w)) 3).
  - vm_compute. reflexivity.
  - vm_compute. reflexivity.
  - repeat constructor.
Defined.

Lemma build_replaces_witness :
  let P := Stub.providers (Ok []) (Ok tt) (Ok Stub.invented_plan) (Ok "") [] in
  let w := Stub.world [Stub.chunk "old text" "old.md"] None None two_pages in
  ∃ names docs,
    dirs (fs w) !! UPLOAD_DIR = Some names
    ∧ Exists (fun n => has_html_extension (PyPath.join UPLOAD_DIR n) = true) names
    ∧ Exists (fun n => has_html_extension (PyPath.join UPLOAD_DIR n) = false) names
    ∧ fst (load_all (PyPath.join UPLOAD_DIR <$> names) [] (snd (clear_database w)))
      = Ok docs
    ∧ chunks_processed (mkBuildResponse "Knowledge Base Built Successfully" 3)
      = length (split_documents 1200 150 docs)
    ∧ vector_store (engine (snd (build_knowledge_base w)))
      = snd (add_documents (split_documents 1200 150 docs)
               (Chroma CHROMA_PATH (snd (delete_collection (vector_store (engine w))))))
    ∧ cached_page (snd (build_knowledge_base w))
      = most_recent_markup (fs w) (None, None)
          (OpLoad <$> (PyPath.join UPLOAD_DIR <$> names)).
Proof.
  intros P w.
  apply (@build_replaces_store_and_page P w (snd (build_knowledge_base w))
           (mkBuildResponse "Knowledge Base Built Successfully" 3)).
  vm_compute. reflexivity.
Defined.

Lemma build_leaves_markup_witness :
  let P := Stub.providers (Ok []) (Ok tt) (Ok Stub.invented_plan) (Ok "") [] in
  let w := Stub.world [] None None two_pages in
  ∃ before name after raw,
    dirs (fs w) !! UPLOAD_DIR = Some (before ++ name :: after)%list
    ∧ is_html_ext (lower (PyPath.suffix (PyPath.join UPLOAD_DIR name))) = true
    ∧ Forall (fun n => is_html_ext (lower (PyPath.suffix (PyPath.join UPLOAD_DIR n))) = false)
        after
    ∧ files (fs w) !! PyPath.join UPLOAD_DIR name = Some raw
    ∧ cached_page (snd (build_knowledge_base w))
      = (Some (PyPath.join UPLOAD_DIR name), Some raw)
    ∧ (truthy raw = true →
       resolve_html_source None (snd (build_knowledge_base w))
       = (Ok (Some raw), snd (build_knowledge_base w))).
Proof.
  intros P w.
  apply (@build_leaves_markup_cached P w (snd (build_knowledge_base w))
           (mkBuildResponse "Knowledge Base Built Successfully" 3)).
  vm_compute. reflexivity.
Defined.

(** The page cached by that build is the second one. *)
Example build_caches_last_page :
  let P := Stub.providers (Ok []) (Ok tt) (Ok Stub.invented_plan) (Ok "") [] in
  cached_page (snd (build_knowledge_base (Stub.world [] None None two_pages)))
  = (Some "data/uploads/b.HTM", Some "<b>").
Proof. vm_compute. reflexivity. Qed.

Lemma build_markup_loaded_witness :
  let P := Stub.providers (Ok []) (Ok tt) (Ok Stub.invented_plan) (Ok "") [] in
  let w := Stub.world [] None None two_pages in
  base_doc_type "data/uploads/b.HTM" = "html"
  ∧ ∃ w', _load_with_metadata "data/uploads/b.HTM" w
          = (Ok [mkDocument (soup_get_text "<b>") (base_metadata "data/uploads/b.HTM")], w')
      ∧ cached_page w' = (Some "data/uploads/b.HTM", Some "<b>").
Proof.
  intros P w.
  apply (@build_markup_is_loaded_as_markup P "data/uploads/b.HTM" w "<b>");
    vm_compute; reflexivity.
Defined.

Lemma build_markup_scan_witness :
  is_markup_name "b.HTM" = true ∧ is_Some (first_markup ["spec.md"; "b.HTM"]).
Proof.
  apply (build_markup_found_by_scan ["spec.md"; "b.HTM"] "b.HTM").
  - set_solver.
  - vm_compute. reflexivity.
Defined.

Lemma returned_script_selectors_witness :
  let P := Stub.providers (Ok []) (Ok tt) (Ok Stub.invented_plan) (Ok fenced_script)
             Stub.page_tags in
  let w := Stub.world [] None None (mkFS ∅ ∅) in
  ∃ html,
    fst (resolve_html_source (Some Stub.page) w) = Ok (Some html)
    ∧ SelectorPattern.findall good_script ≠ []
    ∧ ∀ method selector,
        (method, selector) ∈ SelectorPattern.findall good_script →
        ¬ offending (html_ids html) (html_names html) (html_classes html)
            method selector.
Proof.
  intros P w.
  apply (@returned_script_selectors_exist P (Stub.case1 "spec.md") (Some Stub.page) None
           w (snd (generate_selenium_script (Stub.case1 "spec.md") (Some Stub.page)
                     None w)) good_script).
  vm_compute. reflexivity.
Defined.

Lemma returned_script_clean_witness :
  contains "```" good_script = false ∧ strip good_script = good_script.
Proof.
  pose (P := Stub.providers (Ok []) (Ok tt) (Ok Stub.invented_plan) (Ok fenced_script)
               Stub.page_tags).
  pose (w := Stub.world (P := P) [] None None (mkFS ∅ ∅)).
  apply (@returned_script_is_clean P (Stub.case1 "spec.md") (Some Stub.page) None
           w (snd (generate_selenium_script (Stub.case1 "spec.md") (Some Stub.page)
                     None w)) good_script).
  vm_compute. reflexivity.
Defined.

Lemma markup_recovered_witness :
  let P := Stub.providers (Ok []) (Ok tt) (Ok Stub.invented_plan)
             (Raise (ProviderError "model unavailable")) Stub.page_tags in
  let w := Stub.world [] None None checkout_uploads in
  let w' := snd (generate_selenium_script (Stub.case1 "spec.md") None None w) in
  cached_page w' = (Some checkout_path, Some Stub.page)
  ∧ llm_calls w'
    = (llm_calls w ++ [script_call (Stub.case1 "spec.md") None w [] Stub.page])%list
  ∧ resolve_html_source None w' = (Ok (Some Stub.page), w').
Proof.
  intros P w.
  apply (@markup_recovered_from_uploads P (Stub.case1 "spec.md") None None w []
           checkout_path Stub.page); vm_compute; reflexivity.
Defined.

Lemma findall_wellformed_witness :
  ("CSS_SELECTOR" = "ID" ∨ "CSS_SELECTOR" = "NAME" ∨ "CSS_SELECTOR" = "CSS_SELECTOR")
  ∧ "#apply-btn" ≠ EmptyString
  ∧ contains (String SelectorPattern.squote EmptyString) "#apply-btn" = false
  ∧ contains (String SelectorPattern.dquote EmptyString) "#apply-btn" = false.
Proof.
  apply (findall_matches_wellformed good_script "CSS_SELECTOR" "#apply-btn").
  decide_by_compute.
Defined.

(** A selector with a quote inside is read up to that quote, and so is not
    checked as written. *)
Example quoted_selector_truncated :
  SelectorPattern.findall "find(By.CSS_SELECTOR, 'input[name=promo]') find(By.CSS_SELECTOR, '.a[x=' + q + ']')"
  = [("CSS_SELECTOR", "input[name=promo]"); ("CSS_SELECTOR", ".a[x=")].
Proof. vm_compute. reflexivity. Qed.

(** The four levels on one upload directory, and the call without markup. *)
Lemma markup_resolution_witness :
  let P := Stub.providers (Ok []) (Ok tt) (Ok Stub.invented_plan) (Ok good_script)
             Stub.page_tags in
  let f := Stub.uploads ["notes.txt"; "B.HTML"; "a.html"]
             [("data/uploads/B.HTML", "<b>"); ("data/uploads/a.html", "<a>");
              ("data/old.html", "<old>")] in
  let w1 := Stub.world [] (Some "data/old.html") (Some "<mem>") f in
  let w3 := Stub.world [] (Some "data/old.html") (Some "") f in
  let w4 := Stub.world [] (Some "data/gone.html") None f in
  let w5 := Stub.world [] None None
              (Stub.uploads ["spec.md"] [("data/uploads/spec.md", "text")]) in
  resolve_html_source (Some "<arg>") w1 = (Ok (Some "<arg>"), w1)
  ∧ resolve_html_source (Some "") w1 = (Ok (Some "<mem>"), w1)
  ∧ fst (resolve_html_source None w3) = Ok (Some "<old>")
  ∧ fst (resolve_html_source None w4) = Ok (Some "<b>")
  ∧ fst (resolve_html_source None w5) = Ok None
  ∧ (llm_calls (snd (generate_selenium_script (Stub.case1 "spec.md") None None w5))
     = llm_calls w5
     ∧ ∃ e, fst (generate_selenium_script (Stub.case1 "spec.md") None None w5) = Raise e
         ∧ ∀ docs,
             retriever_invoke (vector_store (engine w5)) 3 (Some ("doc_type", "support"))
               (feature (Stub.case1 "spec.md")) = Ok docs →
             e = ValueError no_html_msg).
Proof.
  intros P f w1 w3 w4 w5.
  assert (∀ n, is_markup_name n = false → ¬ markup_named n) as Hnot.
  { intros n Hn Hm%is_markup_name_iff. congruence. }
  split; [|split; [|split; [|split; [|split]]]].
  - apply (proj1 (@markup_resolved_by_priority P (Some "<arg>") w1)). reflexivity.
  - apply (proj1 (proj2 (@markup_resolved_by_priority P (Some "") w1))); reflexivity.
  - etrans; [apply (proj1 (proj2 (proj2 (@markup_resolved_by_priority P None w3)))
                      eq_refl eq_refl "data/old.html"); vm_compute; reflexivity|].
    vm_compute. reflexivity.
  - etrans; [apply (proj1 (proj1 (proj2 (proj2 (proj2
                       (@markup_resolved_by_priority P None w4)))) eq_refl eq_refl
                       ltac:(intros path [= <-] _; vm_compute; reflexivity))
                      ["notes.txt"] "B.HTML" ["a.html"])|].
    + vm_compute. reflexivity.
    + repeat constructor. apply Hnot. vm_compute. reflexivity.
    + exists "b". left. reflexivity.
    + vm_compute. reflexivity.
  - apply (proj2 (proj1 (proj2 (proj2 (proj2
             (@markup_resolved_by_priority P None w5)))) eq_refl eq_refl
             ltac:(by intros path [=]))).
    intros names [= <-]. repeat constructor. apply Hnot. vm_compute. reflexivity.
  - apply (proj1 (proj2 (proj2 (proj2 (proj2 (@markup_resolved_by_priority P None w5)))))
             (Stub.case1 "spec.md") None None); vm_compute; reflexivity.
Defined.

(** Two runs that part from the claim as first worded.  With no markup
    anywhere and a support retrieval that raises, the call fails with the
    error of the retrieval, not with the missing-markup error.  And the
    scan takes [B.HTML], whose name as written ends in neither .html nor
    .htm, before [a.html]. *)
Lemma markup_error_and_name_case :
  let P := Stub.providers (Raise (ProviderError "store unavailable")) (Ok tt)
             (Ok Stub.invented_plan) (Ok good_script) Stub.page_tags in
  let w := Stub.world [] None None
             (Stub.uploads ["spec.md"] [("data/uploads/spec.md", "text")]) in
  let w' := Stub.world [] None None
              (Stub.uploads ["notes.txt"; "B.HTML"; "a.html"]
                 [("data/uploads/B.HTML", "<b>"); ("data/uploads/a.html", "<a>")]) in
  (fst (resolve_html_source None w) = Ok None
   ∧ fst (generate_selenium_script (Stub.case1 "spec.md") None None w)
     = Raise (ProviderError "store unavailable"))
  ∧ (endswith ".html" "B.HTML" = false
     ∧ endswith ".htm" "B.HTML" = false
     ∧ endswith ".html" "a.html" = true
     ∧ fst (resolve_html_source None w') = Ok (Some "<b>")).
Proof. intros P w w'. repeat split; vm_compute; reflexivity. Qed.

End MoreExamples.
